(** * DigiSign API client: token cache, request execution and request shapes

    A shallow embedding of the API client of the DigiSign MCP server (the
    module that holds [getToken], [apiCall] and the envelope, document,
    recipient and tag operations), and the properties of it that the
    specification states.

    Conventions of the embedding.
    - A JavaScript value is a [value].  Numbers are the integers that a
      double holds exactly (page indices, counts, coordinates in points,
      HTTP statuses, epoch seconds and milliseconds), so that the string
      of a number is its decimal numeral.  Strings are byte strings (the
      UTF-8 encoding of the JavaScript string).
    - An object is the list of its own properties, in the order in which
      the language enumerates them (the order of insertion, for the names
      used here).
    - The module-level variables [cachedToken] and [tokenExpiry], the clock
      read by [Date.now()] and the network reached by [fetch] form the
      [world]; an [async] function is a function from worlds to an outcome
      and a world.  The network is the list of the answers it will give:
      every run of an operation, which sends at most two requests, is the
      run against some such list.
    - [uploadFile], which reads the file system, is left out; the
      multipart body it hands to [apiCall] is kept. *)

From Stdlib Require Import String Ascii List ZArith QArith Bool Lia.
From Stdlib Require Import DecimalString.
Import ListNotations.

Set Warnings "-register-all".

Local Open Scope string_scope.
Local Open Scope Z_scope.

(** ** JavaScript values *)

Inductive value : Type :=
| VUndefined
| VNull
| VBool (b : bool)
| VNum (n : Z)
| VStr (s : string)
| VArr (items : list value)
| VObj (props : list (string * value)).

(** [if (v)], [v || d], [v ? a : b]: ToBoolean.  Objects and arrays are
    always truthy; the falsy values are undefined, null, false, 0 and the
    empty string. *)
Definition truthy (v : value) : bool :=
  match v with
  | VUndefined | VNull => false
  | VBool b => b
  | VNum n => negb (n =? 0)
  | VStr s => negb (String.eqb s "")
  | VArr _ | VObj _ => true
  end.

(** [a || b] *)
Definition js_or (a b : value) : value := if truthy a then a else b.

(** A destructuring default, [{ x = d }]: the default replaces undefined
    only. *)
Definition with_default (d v : value) : value :=
  match v with VUndefined => d | _ => v end.

Definition string_of_Z (n : Z) : string := NilZero.string_of_int (Z.to_int n).

Fixpoint join (sep : string) (l : list string) : string :=
  match l with
  | [] => ""
  | [s] => s
  | s :: rest => s ++ sep ++ join sep rest
  end.

(** ToString, as a template literal applies it to [${v}]. *)
Fixpoint ToString (v : value) : string :=
  match v with
  | VUndefined => "undefined"
  | VNull => "null"
  | VBool true => "true"
  | VBool false => "false"
  | VNum n => string_of_Z n
  | VStr s => s
  | VArr items =>
      join ","
        ((fix elems (l : list value) : list string :=
            match l with
            | [] => []
            | e :: l' =>
                match e with
                | VUndefined | VNull => ""
                | _ => ToString e
                end :: elems l'
            end) items)
  | VObj _ => "[object Object]"
  end.

(** *** Objects *)

(** [o.k]: undefined when [o] has no property [k]. *)
Fixpoint lookup (k : string) (props : list (string * value)) : option value :=
  match props with
  | [] => None
  | (k', v) :: rest => if String.eqb k k' then Some v else lookup k rest
  end.

Definition field (k : string) (o : value) : value :=
  match o with
  | VObj props => match lookup k props with Some v => v | None => VUndefined end
  | _ => VUndefined
  end.

(** [k in o], for an own property. *)
Definition has_own (k : string) (o : value) : bool :=
  match o with
  | VObj props => match lookup k props with Some _ => true | None => false end
  | _ => false
  end.

(** [o.k = v]: overwrites the property in place, or adds it last. *)
Fixpoint set_prop (k : string) (v : value) (props : list (string * value))
  : list (string * value) :=
  match props with
  | [] => [(k, v)]
  | (k', v') :: rest =>
      if String.eqb k k' then (k, v) :: rest else (k', v') :: set_prop k v rest
  end.

Definition assign (k : string) (v : value) (o : value) : value :=
  match o with
  | VObj props => VObj (set_prop k v props)
  | _ => o
  end.

(** *** JSON.stringify *)

Definition hex_digit (n : N) : ascii :=
  match n with
  | 0 => "0" | 1 => "1" | 2 => "2" | 3 => "3" | 4 => "4" | 5 => "5"
  | 6 => "6" | 7 => "7" | 8 => "8" | 9 => "9" | 10 => "a" | 11 => "b"
  | 12 => "c" | 13 => "d" | 14 => "e" | _ => "f"
  end%N%char.

(** The double quote, code 34. *)
Definition dquote : ascii := ascii_of_N 34.

(** QuoteJSONString on one code unit below 0x80; the bytes of a multi-byte
    character pass through. *)
Definition json_escape_char (c : ascii) : string :=
  let n := N_of_ascii c in
  if (n =? 34)%N then String "\" (String dquote "")
  else if (n =? 92)%N then "\\"
  else if (n =? 8)%N then "\b"
  else if (n =? 12)%N then "\f"
  else if (n =? 10)%N then "\n"
  else if (n =? 13)%N then "\r"
  else if (n =? 9)%N then "\t"
  else if (n <? 32)%N then
    "\u00" ++ String (hex_digit (n / 16)) (String (hex_digit (n mod 16)) "")
  else String c "".

Fixpoint json_escape (s : string) : string :=
  match s with
  | EmptyString => ""
  | String c rest => json_escape_char c ++ json_escape rest
  end.

Definition json_quote (s : string) : string :=
  String dquote (json_escape s ++ String dquote "").

(** [JSON.stringify(v)]: [None] is the result undefined.  A property whose
    value is undefined is left out of an object; an undefined element of
    an array is written null. *)
Fixpoint JSON_stringify (v : value) : option string :=
  match v with
  | VUndefined => None
  | VNull => Some "null"
  | VBool true => Some "true"
  | VBool false => Some "false"
  | VNum n => Some (string_of_Z n)
  | VStr s => Some (json_quote s)
  | VArr items =>
      Some ("[" ++
            join ","
              ((fix elems (l : list value) : list string :=
                  match l with
                  | [] => []
                  | e :: l' =>
                      match JSON_stringify e with
                      | Some t => t
                      | None => "null"
                      end :: elems l'
                  end) items)
            ++ "]")
  | VObj props =>
      Some ("{" ++
            join ","
              ((fix members (l : list (string * value)) : list string :=
                  match l with
                  | [] => []
                  | (k, e) :: l' =>
                      match JSON_stringify e with
                      | Some t => (json_quote k ++ ":" ++ t) :: members l'
                      | None => members l'
                      end
                  end) props)
            ++ "}")
  end.

(** *** Strings *)

(** [s.includes(sub)] *)
Fixpoint includes (sub s : string) : bool :=
  String.prefix sub s ||
  match s with
  | EmptyString => false
  | String _ rest => includes sub rest
  end.

(** *** URLSearchParams *)

Definition URLSearchParams : Type := list (string * string).

(** [query.set(name, value)]: the first pair named [name] takes the value
    and the other pairs of that name are removed; a new name is appended. *)
Fixpoint usp_set (name val : string) (q : URLSearchParams) : URLSearchParams :=
  match q with
  | [] => [(name, val)]
  | (n, v) :: rest =>
      if String.eqb n name
      then (name, val) :: filter (fun nv => negb (String.eqb (fst nv) name)) rest
      else (n, v) :: usp_set name val rest
  end.

Definition upper_hex_digit (n : N) : ascii :=
  match n with
  | 0 => "0" | 1 => "1" | 2 => "2" | 3 => "3" | 4 => "4" | 5 => "5"
  | 6 => "6" | 7 => "7" | 8 => "8" | 9 => "9" | 10 => "A" | 11 => "B"
  | 12 => "C" | 13 => "D" | 14 => "E" | _ => "F"
  end%N%char.

(** The application/x-www-form-urlencoded byte serializer: letters, digits
    and [* - . _] stay, a space becomes [+], any other byte is
    percent-encoded. *)
Definition urlencode_byte (c : ascii) : string :=
  let n := N_of_ascii c in
  if (n =? 32)%N then "+"
  else if ((n =? 42) || (n =? 45) || (n =? 46) || (n =? 95)
           || ((48 <=? n) && (n <=? 57))
           || ((65 <=? n) && (n <=? 90))
           || ((97 <=? n) && (n <=? 122)))%N
  then String c ""
  else String "%" (String (upper_hex_digit (n / 16))
                     (String (upper_hex_digit (n mod 16)) "")).

Fixpoint urlencode (s : string) : string :=
  match s with
  | EmptyString => ""
  | String c rest => urlencode_byte c ++ urlencode rest
  end.

(** [query.toString()] *)
Definition usp_toString (q : URLSearchParams) : string :=
  join "&" (map (fun nv => urlencode (fst nv) ++ "=" ++ urlencode (snd nv)) q).

(** ** The world: token cache, clock and network *)

Record form_part : Type := {
  part_name : string;
  part_bytes : string;
  part_filename : string
}.

(** What [fetch] is given as [body]. *)
Inductive payload : Type :=
| NoBody
| TextBody (text : string)
| FormBody (parts : list form_part).

Record request : Type := {
  req_method : string;
  req_url : string;
  req_headers : list (string * string);
  req_body : payload
}.

(** A Response, as this client observes it: [res.status],
    [res.headers.get('content-type')] ([None] is null), the bytes of the
    body (read by [res.text()] and [res.arrayBuffer()]) and the result of
    [res.json()] ([None]: the body is not JSON text and the promise is
    rejected). *)
Record response : Type := {
  status : Z;
  content_type : option string;
  body_bytes : string;
  json : option value
}.

(** [res.ok] *)
Definition ok (res : response) : bool :=
  (200 <=? status res) && (status res <=? 299).

Record world : Type := {
  cachedToken : value;
  tokenExpiry : value;
  clock : Z;                 (* Date.now(), milliseconds since the epoch *)
  sent : list request;       (* the requests issued so far, oldest first *)
  replies : list response    (* what the network answers, in order *)
}.

(** The state of the module when it is loaded. *)
Definition initial (now : Z) (net : list response) : world :=
  {| cachedToken := VNull; tokenExpiry := VNum 0; clock := now;
     sent := []; replies := net |}.

Inductive exn : Type :=
| Error (message : string)   (* new Error(message) *)
| SyntaxError                (* res.json() on a body that is not JSON *)
| TypeError                  (* a property read on null or undefined *)
| FetchFailed.               (* fetch rejected: no answer from the network *)

Inductive outcome (A : Type) : Type :=
| Ok (a : A)
| Throw (e : exn).
Arguments Ok {A} a.
Arguments Throw {A} e.

Definition M (A : Type) : Type := world -> outcome A * world.

Definition ret {A} (a : A) : M A := fun w => (Ok a, w).
Definition throw {A} (e : exn) : M A := fun w => (Throw e, w).
Definition bind {A B} (c : M A) (k : A -> M B) : M B :=
  fun w =>
    match c w with
    | (Ok a, w') => k a w'
    | (Throw e, w') => (Throw e, w')
    end.

Notation "x <- c ;; k" := (bind c (fun x => k))
  (at level 61, c at next level, right associativity).
Notation "c ;;; k" := (bind c (fun _ => k))
  (at level 61, right associativity).

Definition Date_now : M Z := fun w => (Ok (clock w), w).
Definition read_cachedToken : M value := fun w => (Ok (cachedToken w), w).
Definition read_tokenExpiry : M value := fun w => (Ok (tokenExpiry w), w).

Definition write_cachedToken (v : value) : M unit :=
  fun w => (Ok tt, {| cachedToken := v; tokenExpiry := tokenExpiry w;
                      clock := clock w; sent := sent w; replies := replies w |}).

Definition write_tokenExpiry (v : value) : M unit :=
  fun w => (Ok tt, {| cachedToken := cachedToken w; tokenExpiry := v;
                      clock := clock w; sent := sent w; replies := replies w |}).

(** [await fetch(url, init)]: the request is recorded and the next answer
    of the network is consumed. *)
Definition fetch (req : request) : M response :=
  fun w =>
    match replies w with
    | [] =>
        (Throw FetchFailed,
         {| cachedToken := cachedToken w; tokenExpiry := tokenExpiry w;
            clock := clock w; sent := sent w ++ [req]; replies := [] |})
    | res :: rest =>
        (Ok res,
         {| cachedToken := cachedToken w; tokenExpiry := tokenExpiry w;
            clock := clock w; sent := sent w ++ [req]; replies := rest |})
    end.

(** [await res.json()] *)
Definition res_json (res : response) : M value :=
  match json res with
  | Some v => ret v
  | None => throw SyntaxError
  end.

(** [await res.text()] *)
Definition res_text (res : response) : M string := ret (body_bytes res).

(** null and undefined, the values that have no properties. *)
Definition nullish (v : value) : bool :=
  match v with
  | VUndefined | VNull => true
  | _ => false
  end.

(** [o.k] as an expression that can throw: reading a property of null or
    undefined is a TypeError. *)
Definition get_prop (k : string) (o : value) : M value :=
  if nullish o then throw TypeError else ret (field k o).

(** ** The platform

    StringToNumber, the conversion that arithmetic applies to a string, is
    the platform's and is not written out here: the client is modelled
    over any such conversion ([None] is NaN). *)
Class Platform : Type := {
  StringToNumber : string -> option Z
}.

Section Client.

Context {P : Platform}.

(** ** Token manager *)

Definition BASE_URL : string := "https://api.digisign.org".

(** ToNumber; [None] is NaN.  undefined is NaN, null is 0, a boolean is 0
    or 1, a plain object is NaN; a string converts through StringToNumber
    and an array through its string. *)
Definition ToNumber (v : value) : option Z :=
  match v with
  | VNum n => Some n
  | VNull => Some 0
  | VBool b => Some (if b then 1 else 0)
  | VStr s => StringToNumber s
  | VArr _ => StringToNumber (ToString v)
  | VUndefined | VObj _ => None
  end.

(** [Date.now() / 1000 < tokenExpiry - 60], on exact fractions; a
    comparison with NaN is false. *)
Definition before_expiry (now : Z) (expiry : value) : bool :=
  match ToNumber expiry with
  | Some e => negb (Qle_bool (inject_Z (e - 60)) (now # 1000))
  | None => false
  end.

(** The condition of the first [if] of [getToken]. *)
Definition cache_usable (w : world) : bool :=
  truthy (cachedToken w) && before_expiry (clock w) (tokenExpiry w).

(** The token-exchange request. *)
Definition token_request (accessKey secretKey : value) : request :=
  {| req_method := "POST";
     req_url := BASE_URL ++ "/api/auth-token";
     req_headers := [("Content-Type", "application/json")];
     req_body :=
       match JSON_stringify
               (VObj [("accessKey", accessKey); ("secretKey", secretKey)]) with
       | Some t => TextBody t
       | None => NoBody
       end |}.

Definition getToken (accessKey secretKey : value) : M value :=
  cached <- read_cachedToken ;;
  now <- Date_now ;;
  expiry <- read_tokenExpiry ;;
  if truthy cached && before_expiry now expiry then
    ret cached
  else
    res <- fetch (token_request accessKey secretKey) ;;
    if negb (ok res) then
      body <- res_text res ;;
      throw (Error ("Auth failed (" ++ string_of_Z (status res) ++ "): " ++ body))
    else
      data <- res_json res ;;
      token <- get_prop "token" data ;;
      write_cachedToken token ;;;
      exp <- get_prop "exp" data ;;
      write_tokenExpiry exp ;;;
      read_cachedToken.

(** ** Request execution *)

(** The options object of [apiCall]; [body] is a plain value or a
    FormData. *)
Inductive body_arg : Type :=
| BValue (v : value)
| BForm (parts : list form_part).

Record options : Type := {
  accessKey : value;
  secretKey : value;
  body : body_arg;
  isFormData : value
}.

Record credentials : Type := {
  cred_accessKey : value;
  cred_secretKey : value
}.

(** [creds] passed as the options. *)
Definition of_creds (creds : credentials) : options :=
  {| accessKey := cred_accessKey creds; secretKey := cred_secretKey creds;
     body := BValue VUndefined; isFormData := VUndefined |}.

(** [{ ...creds, body }] *)
Definition with_body (creds : credentials) (b : value) : options :=
  {| accessKey := cred_accessKey creds; secretKey := cred_secretKey creds;
     body := BValue b; isFormData := VUndefined |}.

(** [isFormData ? body : body ? JSON.stringify(body) : undefined], as
    [fetch] takes it: a FormData goes through, a string is the text, any
    other value is converted to a string, null and undefined are no body.
    [JSON.stringify] of a FormData is the empty object. *)
Definition request_body (o : options) : payload :=
  if truthy (isFormData o) then
    match body o with
    | BForm parts => FormBody parts
    | BValue VUndefined | BValue VNull => NoBody
    | BValue v => TextBody (ToString v)
    end
  else
    match body o with
    | BForm _ => TextBody "{}"
    | BValue v =>
        if truthy v then
          match JSON_stringify v with
          | Some t => TextBody t
          | None => NoBody
          end
        else NoBody
    end.

(** What an operation resolves to: [{ _binary: true, contentType, buffer }]
    for a download, or the data ([{ success: true }], the parsed JSON). *)
Inductive api_result : Type :=
| Binary (contentType : string) (buffer : string)
| Data (v : value).

Definition api_request (token : value) (method path : string) (o : options)
  : request :=
  let headers := [("Authorization", "Bearer " ++ ToString token)] in
  let headers :=
    if negb (truthy (isFormData o))
    then (headers ++ [("Content-Type", "application/json")])%list
    else headers in
  {| req_method := method;
     req_url := BASE_URL ++ path;
     req_headers := headers;
     req_body := request_body o |}.

(** [res.headers.get('content-type') || ''] *)
Definition contentType_of (res : response) : string :=
  match content_type res with
  | Some s => s
  | None => ""
  end.

Definition is_binary (contentType : string) : bool :=
  includes "application/pdf" contentType || includes "application/zip" contentType.

Definition text_of_json (v : value) : string :=
  match JSON_stringify v with
  | Some t => t
  | None => "undefined"
  end.

Definition apiCall (method path : string) (o : options) : M api_result :=
  token <- getToken (accessKey o) (secretKey o) ;;
  res <- fetch (api_request token method path o) ;;
  let contentType := contentType_of res in
  if is_binary contentType then
    ret (Binary contentType (body_bytes res))
  else if status res =? 204 then
    ret (Data (VObj [("success", VBool true)]))
  else
    data <- res_json res ;;
    if negb (ok res) then
      throw (Error ("API error (" ++ string_of_Z (status res) ++ "): "
                    ++ text_of_json data))
    else
      ret (Data data).

(** ** Operations

    The argument objects are JavaScript objects: a parameter list
    [{ a, b }] reads the properties [a] and [b] of the object it is given
    (undefined when absent) and throws on null and undefined.  The body
    and the path that an operation builds are functions of their own
    ([createEnvelope_body], [listEnvelopes_path], ...), which the operation
    hands to [apiCall]. *)

Definition destructure (p : value) : M value :=
  if nullish p then throw TypeError else ret p.

(** *** Envelopes *)

Definition listEnvelopes_query (params : value) : URLSearchParams :=
  let query : URLSearchParams := [] in
  let query :=
    if truthy (field "status" params)
    then usp_set "status" (ToString (field "status" params)) query else query in
  let query :=
    if truthy (field "page" params)
    then usp_set "page" (ToString (field "page" params)) query else query in
  let query :=
    if truthy (field "itemsPerPage" params)
    then usp_set "itemsPerPage" (ToString (field "itemsPerPage" params)) query
    else query in
  query.

Definition listEnvelopes_path (params : value) : string :=
  let qs := usp_toString (listEnvelopes_query params) in
  "/api/envelopes" ++ (if truthy (VStr qs) then "?" ++ qs else "").

Definition listEnvelopes (creds : credentials) (params : value) : M api_result :=
  params <- destructure (with_default (VObj []) params) ;;
  apiCall "GET" (listEnvelopes_path params) (of_creds creds).

Definition getEnvelope (creds : credentials) (envelopeId : value) : M api_result :=
  apiCall "GET" ("/api/envelopes/" ++ ToString envelopeId) (of_creds creds).

Definition createEnvelope_body (p : value) : value :=
  let name := field "name" p in
  let emailBody := field "emailBody" p in
  let emailBodyCompleted := field "emailBodyCompleted" p in
  let senderName := field "senderName" p in
  let senderEmail := field "senderEmail" p in
  let body := VObj [("name", name)] in
  let body := if truthy emailBody then assign "emailBody" emailBody body else body in
  let body :=
    if truthy emailBodyCompleted
    then assign "emailBodyCompleted" emailBodyCompleted body else body in
  let body := if truthy senderName then assign "senderName" senderName body else body in
  let body := if truthy senderEmail then assign "senderEmail" senderEmail body else body in
  body.

Definition createEnvelope (creds : credentials) (p : value) : M api_result :=
  p <- destructure p ;;
  apiCall "POST" "/api/envelopes" (with_body creds (createEnvelope_body p)).

Definition updateEnvelope (creds : credentials) (envelopeId updates : value)
  : M api_result :=
  apiCall "PATCH" ("/api/envelopes/" ++ ToString envelopeId) (with_body creds updates).

Definition deleteEnvelope (creds : credentials) (envelopeId : value) : M api_result :=
  apiCall "DELETE" ("/api/envelopes/" ++ ToString envelopeId) (of_creds creds).

Definition sendEnvelope (creds : credentials) (envelopeId : value) : M api_result :=
  apiCall "POST" ("/api/envelopes/" ++ ToString envelopeId ++ "/send") (of_creds creds).

Definition cancelEnvelope (creds : credentials) (envelopeId : value) : M api_result :=
  apiCall "POST" ("/api/envelopes/" ++ ToString envelopeId ++ "/cancel") (of_creds creds).

(** *** Documents *)

Definition addDocument (creds : credentials) (envelopeId p : value) : M api_result :=
  p <- destructure p ;;
  apiCall "POST" ("/api/envelopes/" ++ ToString envelopeId ++ "/documents")
    (with_body creds
       (VObj [("file", VStr ("/api/files/" ++ ToString (field "fileId" p)));
              ("name", field "name" p)])).

Definition listDocuments (creds : credentials) (envelopeId : value) : M api_result :=
  apiCall "GET" ("/api/envelopes/" ++ ToString envelopeId ++ "/documents") (of_creds creds).

Definition downloadEnvelope_path (envelopeId p : value) : string :=
  let output := with_default (VStr "combined") (field "output" p) in
  let includeLog := with_default (VBool true) (field "includeLog" p) in
  "/api/envelopes/" ++ ToString envelopeId ++ "/download?output=" ++ ToString output
    ++ "&include_log=" ++ ToString includeLog.

Definition downloadEnvelope (creds : credentials) (envelopeId p : value)
  : M api_result :=
  p <- destructure (with_default (VObj []) p) ;;
  apiCall "GET" (downloadEnvelope_path envelopeId p) (of_creds creds).

Definition getDownloadUrl_path (envelopeId p : value) : string :=
  let output := with_default (VStr "combined") (field "output" p) in
  "/api/envelopes/" ++ ToString envelopeId ++ "/download-url?output=" ++ ToString output.

Definition getDownloadUrl (creds : credentials) (envelopeId p : value)
  : M api_result :=
  p <- destructure (with_default (VObj []) p) ;;
  apiCall "GET" (getDownloadUrl_path envelopeId p) (of_creds creds).

(** *** Recipients *)

Definition addRecipient_body (p : value) : value :=
  let mobile := field "mobile" p in
  let body :=
    VObj [("role", field "role" p); ("name", field "name" p);
          ("email", field "email" p)] in
  let body := if truthy mobile then assign "mobile" mobile body else body in
  body.

Definition addRecipient (creds : credentials) (envelopeId p : value) : M api_result :=
  p <- destructure p ;;
  apiCall "POST" ("/api/envelopes/" ++ ToString envelopeId ++ "/recipients")
    (with_body creds (addRecipient_body p)).

Definition listRecipients (creds : credentials) (envelopeId : value) : M api_result :=
  apiCall "GET" ("/api/envelopes/" ++ ToString envelopeId ++ "/recipients") (of_creds creds).

Definition getRecipient (creds : credentials) (envelopeId recipientId : value)
  : M api_result :=
  apiCall "GET"
    ("/api/envelopes/" ++ ToString envelopeId ++ "/recipients/" ++ ToString recipientId)
    (of_creds creds).

(** *** Tags *)

Definition document_ref (envelopeId documentId : value) : value :=
  VStr ("/api/envelopes/" ++ ToString envelopeId ++ "/documents/" ++ ToString documentId).

Definition recipient_ref (envelopeId recipientId : value) : value :=
  VStr ("/api/envelopes/" ++ ToString envelopeId ++ "/recipients/" ++ ToString recipientId).

Definition addTag_body (envelopeId p : value) : value :=
  let documentId := field "documentId" p in
  let recipientId := field "recipientId" p in
  let type := field "type" p in
  let placeholder := field "placeholder" p in
  let page := field "page" p in
  let xPosition := field "xPosition" p in
  let yPosition := field "yPosition" p in
  let positioning := field "positioning" p in
  let body :=
    VObj [("recipient", recipient_ref envelopeId recipientId);
          ("type", js_or type (VStr "signature"))] in
  if truthy placeholder then
    let body := assign "placeholder" placeholder body in
    let body := if truthy positioning then assign "positioning" positioning body else body in
    let body :=
      if truthy documentId
      then assign "document" (document_ref envelopeId documentId) body else body in
    body
  else
    let body := assign "document" (document_ref envelopeId documentId) body in
    let body := assign "page" page body in
    let body := assign "xPosition" xPosition body in
    let body := assign "yPosition" yPosition body in
    body.

Definition addTag (creds : credentials) (envelopeId p : value) : M api_result :=
  p <- destructure p ;;
  apiCall "POST" ("/api/envelopes/" ++ ToString envelopeId ++ "/tags")
    (with_body creds (addTag_body envelopeId p)).

Definition addTagByPlaceholder_body (envelopeId p : value) : value :=
  let positioning := field "positioning" p in
  let documentIds := field "documentIds" p in
  let body :=
    VObj [("recipient", recipient_ref envelopeId (field "recipientId" p));
          ("type", js_or (field "type" p) (VStr "signature"));
          ("placeholder", field "placeholder" p)] in
  let body := if truthy positioning then assign "positioning" positioning body else body in
  let body := if truthy documentIds then assign "applyToDocuments" documentIds body else body in
  body.

Definition addTagByPlaceholder (creds : credentials) (envelopeId p : value)
  : M api_result :=
  p <- destructure p ;;
  apiCall "POST" ("/api/envelopes/" ++ ToString envelopeId ++ "/tags/by-placeholder")
    (with_body creds (addTagByPlaceholder_body envelopeId p)).

Definition listTags (creds : credentials) (envelopeId : value) : M api_result :=
  apiCall "GET" ("/api/envelopes/" ++ ToString envelopeId ++ "/tags") (of_creds creds).

(** *** Account *)

Definition getAccount (creds : credentials) : M api_result :=
  apiCall "GET" "/api/account" (of_creds creds).

(** ** The token cache *)

(** The cache holds a token that may be handed out, in the words of the
    specification: a cached token exists, and the current time in epoch
    seconds is strictly before the cached expiry minus 60 seconds. *)
Definition token_valid (w : world) : Prop :=
  truthy (cachedToken w) = true /\
  exists e, ToNumber (tokenExpiry w) = Some e /\
            (clock w # 1000 < inject_Z (e - 60))%Q.

(** The world at another reading of the clock. *)
Definition at_time (now : Z) (w : world) : world :=
  {| cachedToken := cachedToken w; tokenExpiry := tokenExpiry w; clock := now;
     sent := sent w; replies := replies w |}.

(** The world after one token exchange that was answered. *)
Definition exchanged (accessKey secretKey : value) (rest : list response)
  (w : world) : world :=
  {| cachedToken := cachedToken w; tokenExpiry := tokenExpiry w; clock := clock w;
     sent := sent w ++ [token_request accessKey secretKey]; replies := rest |}.

(** The world after a successful exchange stored [token] and [exp]. *)
Definition refreshed (accessKey secretKey : value) (rest : list response)
  (token exp : value) (w : world) : world :=
  {| cachedToken := token; tokenExpiry := exp; clock := clock w;
     sent := sent w ++ [token_request accessKey secretKey]; replies := rest |}.

Lemma before_expiry_num (now e : Z) :
  before_expiry now (VNum e) = (now <? (e - 60) * 1000).
Proof.
  unfold before_expiry, Qle_bool; simpl.
  rewrite Z.mul_1_r. symmetry. apply Z.ltb_antisym.
Qed.

Lemma before_expiry_iff (now : Z) (expiry : value) :
  before_expiry now expiry = true <->
  exists e, ToNumber expiry = Some e /\ (now # 1000 < inject_Z (e - 60))%Q.
Proof.
  unfold before_expiry. destruct (ToNumber expiry) as [e|].
  - rewrite negb_true_iff. split.
    + intros H. exists e. split; [reflexivity|].
      apply Qnot_le_lt. intros Hle. apply Qle_bool_iff in Hle. congruence.
    + intros [e' [He' Hlt]]. injection He' as <-.
      destruct (Qle_bool (inject_Z (e - 60)) (now # 1000)) eqn:Hb; [|reflexivity].
      apply Qle_bool_iff in Hb. exfalso. exact (Qlt_not_le _ _ Hlt Hb).
  - split; [discriminate|]. intros [e [He _]]. discriminate.
Qed.

Lemma cache_usable_iff (w : world) : cache_usable w = true <-> token_valid w.
Proof.
  unfold cache_usable, token_valid.
  rewrite andb_true_iff, before_expiry_iff. reflexivity.
Qed.

Lemma cache_usable_false_iff (w : world) : cache_usable w = false <-> ~ token_valid w.
Proof.
  rewrite <- cache_usable_iff. destruct (cache_usable w); split; congruence.
Qed.

(** A usable cache answers the call on its own. *)
Lemma getToken_hit (ak sk : value) (w : world) :
  cache_usable w = true -> getToken ak sk w = (Ok (cachedToken w), w).
Proof.
  intros H. unfold cache_usable in H.
  unfold getToken, bind, read_cachedToken, Date_now, read_tokenExpiry; simpl.
  rewrite H. reflexivity.
Qed.

(** Without a usable cache the call is the exchange. *)
Lemma getToken_miss (ak sk : value) (w : world) :
  cache_usable w = false ->
  getToken ak sk w =
    (res <- fetch (token_request ak sk) ;;
     if negb (ok res) then
       body <- res_text res ;;
       throw (Error ("Auth failed (" ++ string_of_Z (status res) ++ "): " ++ body))
     else
       data <- res_json res ;;
       token <- get_prop "token" data ;;
       write_cachedToken token ;;;
       exp <- get_prop "exp" data ;;
       write_tokenExpiry exp ;;;
       read_cachedToken) w.
Proof.
  intros H. unfold cache_usable in H.
  unfold getToken at 1.
  unfold bind at 1 2 3. unfold read_cachedToken at 1, Date_now, read_tokenExpiry.
  rewrite H. reflexivity.
Qed.

(** The exchange is one request, whatever comes of it. *)
Lemma getToken_miss_sent (ak sk : value) (w : world) :
  cache_usable w = false ->
  sent (snd (getToken ak sk w)) = (sent w ++ [token_request ak sk])%list.
Proof.
  intros H. rewrite (getToken_miss ak sk w H).
  unfold bind, fetch. destruct (replies w) as [|res rest]; [reflexivity|].
  destruct (negb (ok res)); [reflexivity|].
  unfold res_json. destruct (json res) as [data|]; [|reflexivity].
  destruct data; reflexivity.
Qed.

Lemma getToken_miss_rejected (ak sk : value) (w : world) (res : response)
  (rest : list response) :
  cache_usable w = false -> replies w = res :: rest -> ok res = false ->
  getToken ak sk w =
    (Throw (Error ("Auth failed (" ++ string_of_Z (status res) ++ "): "
                   ++ body_bytes res)),
     exchanged ak sk rest w).
Proof.
  intros H Hr Hok. rewrite (getToken_miss ak sk w H).
  unfold bind, fetch. rewrite Hr, Hok. reflexivity.
Qed.

Lemma getToken_miss_stored (ak sk : value) (w : world) (res : response)
  (rest : list response) (data : value) :
  cache_usable w = false -> replies w = res :: rest -> ok res = true ->
  json res = Some data -> nullish data = false ->
  getToken ak sk w =
    (Ok (field "token" data),
     refreshed ak sk rest (field "token" data) (field "exp" data) w).
Proof.
  intros H Hr Hok Hj Hn. rewrite (getToken_miss ak sk w H).
  unfold bind, fetch. rewrite Hr, Hok. simpl.
  unfold res_json. rewrite Hj.
  destruct data; try reflexivity; discriminate.
Qed.

(** A call that returns a token leaves that token in the cache. *)
Lemma getToken_returns_cached (ak sk : value) (w w1 : world) (t : value) :
  getToken ak sk w = (Ok t, w1) -> cachedToken w1 = t.
Proof.
  destruct (cache_usable w) eqn:Hu.
  - rewrite (getToken_hit ak sk w Hu). intros H. injection H as <- <-. reflexivity.
  - rewrite (getToken_miss ak sk w Hu). unfold bind, fetch.
    destruct (replies w) as [|res rest]; [discriminate|].
    destruct (negb (ok res)); [discriminate|].
    unfold res_json. destruct (json res) as [data|]; [|discriminate].
    unfold get_prop. simpl. destruct (nullish data); simpl; [discriminate|].
    intros H. injection H as <- <-. reflexivity.
Qed.

(** A call that throws leaves the cache as it was. *)
Lemma getToken_throw_keeps_cache (ak sk : value) (w w1 : world) (e : exn) :
  getToken ak sk w = (Throw e, w1) ->
  cachedToken w1 = cachedToken w /\ tokenExpiry w1 = tokenExpiry w.
Proof.
  destruct (cache_usable w) eqn:Hu.
  - rewrite (getToken_hit ak sk w Hu). discriminate.
  - rewrite (getToken_miss ak sk w Hu). unfold bind, fetch.
    destruct (replies w) as [|res rest].
    + intros H. injection H as _ <-. split; reflexivity.
    + destruct (negb (ok res)).
      * simpl. intros H. injection H as _ <-. split; reflexivity.
      * unfold res_json. destruct (json res) as [data|].
        -- unfold get_prop. simpl. destruct (nullish data); simpl.
           ++ intros H. injection H as _ <-. split; reflexivity.
           ++ discriminate.
        -- simpl. intros H. injection H as _ <-. split; reflexivity.
Qed.

(** ** Theorems: token manager *)

(** C1.  [getToken] returns the cached token, with no request and the
    world untouched, exactly when a cached token exists and the current
    time is strictly before its expiry minus 60 seconds.  Otherwise it
    issues exactly one token-exchange request, and when that is answered
    with a success status and a JSON body, the token and the expiry of the
    body overwrite the cache and the new token is returned.  For a token
    cached with expiry [t0 + 3600], a call before second [t0 + 3540] sends
    nothing and a call at second [t0 + 3541] or later sends one exchange. *)
Theorem getToken_cache_policy (ak sk : value) (w : world) :
  (token_valid w -> getToken ak sk w = (Ok (cachedToken w), w))
  /\ (~ token_valid w ->
      sent (snd (getToken ak sk w)) = (sent w ++ [token_request ak sk])%list
      /\ forall res rest data,
          replies w = res :: rest -> ok res = true ->
          json res = Some data -> nullish data = false ->
          getToken ak sk w =
            (Ok (field "token" data),
             refreshed ak sk rest (field "token" data) (field "exp" data) w))
  /\ (forall t0 : Z,
        truthy (cachedToken w) = true -> tokenExpiry w = VNum (t0 + 3600) ->
        (clock w < (t0 + 3540) * 1000 ->
         getToken ak sk w = (Ok (cachedToken w), w))
        /\ ((t0 + 3541) * 1000 <= clock w ->
            sent (snd (getToken ak sk w))
            = (sent w ++ [token_request ak sk])%list)).
Proof.
  split; [|split].
  - intros Hv. apply getToken_hit. apply cache_usable_iff. exact Hv.
  - intros Hv. apply cache_usable_false_iff in Hv. split.
    + apply getToken_miss_sent. exact Hv.
    + intros res rest data Hr Hok Hj Hn.
      apply getToken_miss_stored with (res := res); assumption.
  - intros t0 Ht He. split; intros Hc.
    + apply getToken_hit. unfold cache_usable.
      rewrite Ht, He, before_expiry_num. apply Z.ltb_lt. lia.
    + apply getToken_miss_sent. unfold cache_usable.
      rewrite Ht, He, before_expiry_num. apply Z.ltb_ge. lia.
Qed.

(** C9.  When the token exchange is answered with a non-success status,
    [getToken] fails with the auth error, which carries the status and the
    body of the answer, and the cached token and expiry are what they were
    before the call. *)
Theorem getToken_failed_exchange_keeps_cache (ak sk : value) (w : world)
  (res : response) (rest : list response) :
  ~ token_valid w -> replies w = res :: rest -> ok res = false ->
  fst (getToken ak sk w)
  = Throw (Error ("Auth failed (" ++ string_of_Z (status res) ++ "): "
                  ++ body_bytes res))
  /\ cachedToken (snd (getToken ak sk w)) = cachedToken w
  /\ tokenExpiry (snd (getToken ak sk w)) = tokenExpiry w
  /\ sent (snd (getToken ak sk w)) = (sent w ++ [token_request ak sk])%list.
Proof.
  intros Hv Hr Hok. apply cache_usable_false_iff in Hv.
  rewrite (getToken_miss_rejected ak sk w res rest Hv Hr Hok).
  repeat split; reflexivity.
Qed.

(** C10.  The cache is not keyed by the key pair: while the cached token
    is valid, [getToken] returns it for any key pair, with no request, so
    the result does not depend on the arguments; in particular a token
    obtained with one key pair is handed to a later call made with another
    key pair. *)
Theorem token_cache_not_keyed_by_credentials (ak1 sk1 ak2 sk2 : value) (w : world) :
  (token_valid w ->
   getToken ak2 sk2 w = (Ok (cachedToken w), w)
   /\ getToken ak2 sk2 w = getToken ak1 sk1 w)
  /\ (forall (t : value) (w1 : world) (later : Z),
        getToken ak1 sk1 w = (Ok t, w1) ->
        token_valid (at_time later w1) ->
        getToken ak2 sk2 (at_time later w1) = (Ok t, at_time later w1)).
Proof.
  split.
  - intros Hv. apply cache_usable_iff in Hv.
    rewrite !(getToken_hit _ _ w Hv). split; reflexivity.
  - intros t w1 later H1 Hv. apply cache_usable_iff in Hv.
    rewrite (getToken_hit _ _ _ Hv).
    apply getToken_returns_cached in H1. simpl. rewrite H1. reflexivity.
Qed.

(** ** Theorems: request execution *)

(** With the token in hand, [apiCall] sends one request and settles on
    the answer. *)
Lemma apiCall_after_token (method path : string) (o : options) (w w1 : world)
  (token : value) (res : response) (rest : list response) :
  getToken (accessKey o) (secretKey o) w = (Ok token, w1) ->
  replies w1 = res :: rest ->
  apiCall method path o w =
    (if is_binary (contentType_of res) then
       ret (Binary (contentType_of res) (body_bytes res))
     else if status res =? 204 then
       ret (Data (VObj [("success", VBool true)]))
     else
       data <- res_json res ;;
       if negb (ok res) then
         throw (Error ("API error (" ++ string_of_Z (status res) ++ "): "
                       ++ text_of_json data))
       else ret (Data data))
      {| cachedToken := cachedToken w1; tokenExpiry := tokenExpiry w1;
         clock := clock w1;
         sent := sent w1 ++ [api_request token method path o];
         replies := rest |}.
Proof.
  intros Hg Hr. unfold apiCall. unfold bind at 1. rewrite Hg.
  unfold bind at 1. unfold fetch. rewrite Hr. reflexivity.
Qed.

(** A failed token exchange fails the call before any API request. *)
Lemma apiCall_token_failure (method path : string) (o : options) (w w1 : world)
  (e : exn) :
  getToken (accessKey o) (secretKey o) w = (Throw e, w1) ->
  apiCall method path o w = (Throw e, w1).
Proof.
  intros Hg. unfold apiCall. unfold bind at 1. rewrite Hg. reflexivity.
Qed.

(** A non-success answer whose body is JSON fails the call with an error
    that carries the status and the parsed body. *)
Lemma apiCall_error_json (method path : string) (o : options) (w w1 : world)
  (token : value) (res : response) (rest : list response) (data : value) :
  getToken (accessKey o) (secretKey o) w = (Ok token, w1) ->
  replies w1 = res :: rest ->
  is_binary (contentType_of res) = false -> ok res = false -> status res <> 204 ->
  json res = Some data ->
  fst (apiCall method path o w)
  = Throw (Error ("API error (" ++ string_of_Z (status res) ++ "): "
                  ++ text_of_json data)).
Proof.
  intros Hg Hr Hb Hok Hs Hj.
  rewrite (apiCall_after_token method path o w w1 token res rest Hg Hr).
  rewrite Hb. apply Z.eqb_neq in Hs. rewrite Hs.
  unfold bind, res_json. rewrite Hj. simpl. rewrite Hok. reflexivity.
Qed.

(** An answer whose body is not JSON fails the call in [res.json()],
    whatever the status: the error is the parser's and carries neither the
    status nor the body. *)
Lemma apiCall_unparsable (method path : string) (o : options) (w w1 : world)
  (token : value) (res : response) (rest : list response) :
  getToken (accessKey o) (secretKey o) w = (Ok token, w1) ->
  replies w1 = res :: rest ->
  is_binary (contentType_of res) = false -> status res <> 204 ->
  json res = None ->
  fst (apiCall method path o w) = Throw SyntaxError.
Proof.
  intros Hg Hr Hb Hs Hj.
  rewrite (apiCall_after_token method path o w w1 token res rest Hg Hr).
  rewrite Hb. apply Z.eqb_neq in Hs. rewrite Hs.
  unfold bind, res_json. rewrite Hj. reflexivity.
Qed.

(** C2.  The answer is dispatched in this order.  A content type that
    contains application/pdf or application/zip gives the binary result
    with that content type and the bytes of the body, whatever the status
    and whether or not the body is JSON.  Otherwise status 204 gives the
    success result with no payload, again without the body being parsed.
    Otherwise the body is parsed, and a success status returns the parsed
    value. *)
Theorem apiCall_response_dispatch (method path : string) (o : options)
  (w w1 : world) (token : value) (res : response) (rest : list response) :
  getToken (accessKey o) (secretKey o) w = (Ok token, w1) ->
  replies w1 = res :: rest ->
  (is_binary (contentType_of res) = true ->
   fst (apiCall method path o w)
   = Ok (Binary (contentType_of res) (body_bytes res)))
  /\ (is_binary (contentType_of res) = false -> status res = 204 ->
      fst (apiCall method path o w) = Ok (Data (VObj [("success", VBool true)])))
  /\ (is_binary (contentType_of res) = false -> status res <> 204 ->
      forall data, json res = Some data -> ok res = true ->
      fst (apiCall method path o w) = Ok (Data data)).
Proof.
  intros Hg Hr.
  rewrite (apiCall_after_token method path o w w1 token res rest Hg Hr).
  split; [|split].
  - intros Hb. rewrite Hb. reflexivity.
  - intros Hb Hs. rewrite Hb, Hs. reflexivity.
  - intros Hb Hs data Hj Hok. rewrite Hb.
    apply Z.eqb_neq in Hs. rewrite Hs.
    unfold bind, res_json. rewrite Hj. simpl. rewrite Hok. reflexivity.
Qed.

(** ** Theorems: request shapes *)

(** C8.  [getDownloadUrl] and [downloadEnvelope] put [output=combined] in
    the path when the options carry no [output] (or there are no options),
    and put a supplied [output] in the path as it is. *)
Theorem download_output_default (creds : credentials) (envelopeId p : value) :
  (field "output" p = VUndefined ->
   getDownloadUrl_path envelopeId p
   = "/api/envelopes/" ++ ToString envelopeId ++ "/download-url?output=combined"
   /\ downloadEnvelope_path envelopeId p
      = "/api/envelopes/" ++ ToString envelopeId
        ++ "/download?output=combined&include_log="
        ++ ToString (with_default (VBool true) (field "includeLog" p)))
  /\ (forall s : string,
        field "output" p = VStr s ->
        getDownloadUrl_path envelopeId p
        = "/api/envelopes/" ++ ToString envelopeId ++ "/download-url?output=" ++ s
        /\ downloadEnvelope_path envelopeId p
           = "/api/envelopes/" ++ ToString envelopeId ++ "/download?output=" ++ s
             ++ "&include_log="
             ++ ToString (with_default (VBool true) (field "includeLog" p)))
  /\ (nullish p = false ->
      getDownloadUrl creds envelopeId p
      = apiCall "GET" (getDownloadUrl_path envelopeId p) (of_creds creds)
      /\ downloadEnvelope creds envelopeId p
         = apiCall "GET" (downloadEnvelope_path envelopeId p) (of_creds creds))
  /\ getDownloadUrl creds envelopeId VUndefined
     = apiCall "GET"
         ("/api/envelopes/" ++ ToString envelopeId ++ "/download-url?output=combined")
         (of_creds creds)
  /\ downloadEnvelope creds envelopeId VUndefined
     = apiCall "GET"
         ("/api/envelopes/" ++ ToString envelopeId
          ++ "/download?output=combined&include_log=true")
         (of_creds creds).
Proof.
  split; [|split; [|split; [|split]]].
  - intros H. unfold getDownloadUrl_path, downloadEnvelope_path.
    rewrite H. split; reflexivity.
  - intros s H. unfold getDownloadUrl_path, downloadEnvelope_path.
    rewrite H. split; reflexivity.
  - intros H. unfold getDownloadUrl, downloadEnvelope, bind, destructure.
    destruct p; try discriminate; split; reflexivity.
  - reflexivity.
  - reflexivity.
Qed.

Definition envelope_optional_fields : list string :=
  ["emailBody"; "emailBodyCompleted"; "senderName"; "senderEmail"].

(** C6.  [createEnvelope] leaves out of the request body every optional
    field that the caller did not supply; for [{ name: "X" }] the body is
    that object and nothing else, and the call is the POST of it.
    [addRecipient] leaves out [mobile] when it is not supplied. *)
Theorem createEnvelope_omits_absent_fields (creds : credentials) (p : value) :
  (forall k : string,
      In k envelope_optional_fields -> field k p = VUndefined ->
      has_own k (createEnvelope_body p) = false)
  /\ (field "emailBody" p = VUndefined ->
      field "emailBodyCompleted" p = VUndefined ->
      field "senderName" p = VUndefined ->
      field "senderEmail" p = VUndefined ->
      createEnvelope_body p = VObj [("name", field "name" p)])
  /\ createEnvelope_body (VObj [("name", VStr "X")]) = VObj [("name", VStr "X")]
  /\ createEnvelope creds (VObj [("name", VStr "X")])
     = apiCall "POST" "/api/envelopes" (with_body creds (VObj [("name", VStr "X")]))
  /\ request_body (with_body creds (createEnvelope_body (VObj [("name", VStr "X")])))
     = TextBody ("{" ++ json_quote "name" ++ ":" ++ json_quote "X" ++ "}")
  /\ (field "mobile" p = VUndefined ->
      has_own "mobile" (addRecipient_body p) = false
      /\ addRecipient_body p
         = VObj [("role", field "role" p); ("name", field "name" p);
                 ("email", field "email" p)]).
Proof.
  split; [|split; [|split; [|split; [|split]]]].
  - intros k Hin Hk. unfold envelope_optional_fields in Hin. simpl in Hin.
    unfold createEnvelope_body.
    destruct Hin as [<-|[<-|[<-|[<-|[]]]]]; rewrite Hk; simpl;
      repeat match goal with
             | |- context [truthy (field ?f p)] => destruct (truthy (field f p))
             end; reflexivity.
  - intros H1 H2 H3 H4. unfold createEnvelope_body.
    rewrite H1, H2, H3, H4. reflexivity.
  - reflexivity.
  - reflexivity.
  - reflexivity.
  - intros H. unfold addRecipient_body. rewrite H. split; reflexivity.
Qed.

(** *** Query of [listEnvelopes] *)

Definition listEnvelopes_filters : list string := ["status"; "page"; "itemsPerPage"].

(** The filters of [params] whose value is truthy, in the order the code
    looks at them, each with its value as a string. *)
Definition truthy_filters (params : value) : URLSearchParams :=
  flat_map
    (fun k => if truthy (field k params)
              then [(k, ToString (field k params))] else [])
    listEnvelopes_filters.

(** What the specification states: a filter is in the query exactly when
    the input supplies it. *)
Definition query_by_presence : Prop :=
  forall (params : value) (k : string),
    In k listEnvelopes_filters ->
    (In k (map fst (listEnvelopes_query params)) <-> field k params <> VUndefined).

Lemma listEnvelopes_query_eq (params : value) :
  listEnvelopes_query params = truthy_filters params.
Proof.
  unfold listEnvelopes_query, truthy_filters, listEnvelopes_filters. simpl.
  destruct (truthy (field "status" params));
    destruct (truthy (field "page" params));
    destruct (truthy (field "itemsPerPage" params)); reflexivity.
Qed.

Lemma truthy_filters_names (params : value) (k : string) :
  In k (map fst (truthy_filters params)) <->
  In k listEnvelopes_filters /\ truthy (field k params) = true.
Proof.
  unfold truthy_filters, listEnvelopes_filters. simpl.
  destruct (truthy (field "status" params)) eqn:Hs;
    destruct (truthy (field "page" params)) eqn:Hp;
    destruct (truthy (field "itemsPerPage" params)) eqn:Hi; simpl;
    (split;
     [ intros H; repeat (destruct H as [<-|H]; [tauto|]); destruct H
     | intros [H Ht]; repeat (destruct H as [<-|H]; [tauto || congruence|]);
       destruct H ]).
Qed.

Lemma usp_toString_truthy (q : URLSearchParams) :
  truthy (VStr (usp_toString q)) = match q with [] => false | _ => true end.
Proof.
  destruct q as [|[n v] rest]; [reflexivity|].
  unfold usp_toString. simpl.
  destruct rest as [|nv rest]; destruct (urlencode n); reflexivity.
Qed.

(** C5, as the specification states it, fails: page 0 is supplied and is
    not in the query. *)
Lemma listEnvelopes_page_zero_counterexample :
  field "page" (VObj [("page", VNum 0)]) <> VUndefined
  /\ listEnvelopes_path (VObj [("page", VNum 0)]) = "/api/envelopes"
  /\ ~ query_by_presence.
Proof.
  split; [discriminate|]. split; [reflexivity|].
  intros H.
  destruct (H (VObj [("page", VNum 0)]) "page") as [_ Hback].
  - simpl. tauto.
  - apply Hback. discriminate.
Qed.

(** C5, amended.  The query holds exactly the filters whose value is
    truthy, each once, in the order status, page, itemsPerPage, and nothing
    else; a filter that is not supplied is never in it.  The path has no
    query string when no filter is truthy: [listEnvelopes({})] asks for
    [/api/envelopes] and [listEnvelopes({status: "sent"})] for
    [/api/envelopes?status=sent]. *)
Theorem listEnvelopes_query_truthy_filters (creds : credentials) (params : value) :
  listEnvelopes_query params = truthy_filters params
  /\ (forall k : string,
        In k (map fst (listEnvelopes_query params)) <->
        In k listEnvelopes_filters /\ truthy (field k params) = true)
  /\ (forall k : string,
        field k params = VUndefined ->
        ~ In k (map fst (listEnvelopes_query params)))
  /\ listEnvelopes_path params
     = "/api/envelopes"
       ++ match truthy_filters params with
          | [] => ""
          | q => "?" ++ usp_toString q
          end
  /\ listEnvelopes creds (VObj []) = apiCall "GET" "/api/envelopes" (of_creds creds)
  /\ listEnvelopes creds VUndefined = apiCall "GET" "/api/envelopes" (of_creds creds)
  /\ listEnvelopes creds (VObj [("status", VStr "sent")])
     = apiCall "GET" "/api/envelopes?status=sent" (of_creds creds).
Proof.
  split; [|split; [|split; [|split; [|split; [|split]]]]].
  - apply listEnvelopes_query_eq.
  - intros k. rewrite listEnvelopes_query_eq. apply truthy_filters_names.
  - intros k Hk Hin. rewrite listEnvelopes_query_eq in Hin.
    apply truthy_filters_names in Hin. destruct Hin as [_ Ht].
    rewrite Hk in Ht. discriminate.
  - unfold listEnvelopes_path. rewrite usp_toString_truthy.
    rewrite listEnvelopes_query_eq.
    destruct (truthy_filters params); reflexivity.
  - reflexivity.
  - reflexivity.
  - reflexivity.
Qed.

(** *** Body of [addTag] *)

Lemma truthy_field_not_nullish (k : string) (p : value) :
  truthy (field k p) = true -> nullish p = false.
Proof. destruct p; simpl; congruence. Qed.

(** The body in placeholder mode. *)
Lemma addTag_placeholder_mode (envelopeId p : value) :
  truthy (field "placeholder" p) = true ->
  addTag_body envelopeId p =
    VObj ([("recipient", recipient_ref envelopeId (field "recipientId" p));
           ("type", js_or (field "type" p) (VStr "signature"));
           ("placeholder", field "placeholder" p)]
          ++ (if truthy (field "positioning" p)
              then [("positioning", field "positioning" p)] else [])
          ++ (if truthy (field "documentId" p)
              then [("document", document_ref envelopeId (field "documentId" p))]
              else [])).
Proof.
  intros H. unfold addTag_body. rewrite H.
  destruct (truthy (field "positioning" p));
    destruct (truthy (field "documentId" p)); reflexivity.
Qed.

(** The body in coordinate mode. *)
Lemma addTag_coordinate_mode (envelopeId p : value) :
  truthy (field "placeholder" p) = false ->
  addTag_body envelopeId p =
    VObj [("recipient", recipient_ref envelopeId (field "recipientId" p));
          ("type", js_or (field "type" p) (VStr "signature"));
          ("document", document_ref envelopeId (field "documentId" p));
          ("page", field "page" p);
          ("xPosition", field "xPosition" p);
          ("yPosition", field "yPosition" p)].
Proof. intros H. unfold addTag_body. rewrite H. reflexivity. Qed.

Lemma addTag_placeholder_mode_fields (envelopeId p : value) :
  truthy (field "placeholder" p) = true ->
  field "placeholder" (addTag_body envelopeId p) = field "placeholder" p
  /\ has_own "page" (addTag_body envelopeId p) = false
  /\ has_own "xPosition" (addTag_body envelopeId p) = false
  /\ has_own "yPosition" (addTag_body envelopeId p) = false
  /\ (if truthy (field "positioning" p)
      then field "positioning" (addTag_body envelopeId p) = field "positioning" p
      else has_own "positioning" (addTag_body envelopeId p) = false)
  /\ (if truthy (field "documentId" p)
      then field "document" (addTag_body envelopeId p)
           = document_ref envelopeId (field "documentId" p)
      else has_own "document" (addTag_body envelopeId p) = false).
Proof.
  intros H. rewrite (addTag_placeholder_mode envelopeId p H).
  destruct (truthy (field "positioning" p));
    destruct (truthy (field "documentId" p)); repeat split.
Qed.

(** What the specification states for C3: the mode follows the presence of
    [placeholder]. *)
Definition addTag_mode_by_presence : Prop :=
  forall envelopeId p : value,
    field "placeholder" p <> VUndefined ->
    field "page" p = VUndefined ->
    field "xPosition" p = VUndefined ->
    field "yPosition" p = VUndefined ->
    field "placeholder" (addTag_body envelopeId p) = field "placeholder" p
    /\ has_own "page" (addTag_body envelopeId p) = false.

(** C3, as the specification states it, fails: an empty placeholder is
    set, and the body is built in coordinate mode, with no placeholder,
    with a document reference made from the missing document id, and with
    the properties page, xPosition and yPosition. *)
Lemma addTag_empty_placeholder_counterexample :
  field "placeholder" (VObj [("recipientId", VStr "r1"); ("placeholder", VStr "")])
  <> VUndefined
  /\ addTag_body (VStr "e1")
       (VObj [("recipientId", VStr "r1"); ("placeholder", VStr "")])
     = VObj [("recipient", VStr "/api/envelopes/e1/recipients/r1");
             ("type", VStr "signature");
             ("document", VStr "/api/envelopes/e1/documents/undefined");
             ("page", VUndefined); ("xPosition", VUndefined);
             ("yPosition", VUndefined)]
  /\ ~ addTag_mode_by_presence.
Proof.
  split; [discriminate|]. split; [reflexivity|].
  intros H.
  destruct (H (VStr "e1")
              (VObj [("recipientId", VStr "r1"); ("placeholder", VStr "")]))
    as [Hp _]; try reflexivity; discriminate.
Qed.

(** C3, amended.  The mode follows the truthiness of [placeholder].  A
    truthy placeholder (a string that is not empty), with no coordinates,
    gives a body that contains the placeholder, the positioning when it is
    truthy and a document reference when the document id is truthy, and
    that has no page, xPosition or yPosition.  With no placeholder and the
    coordinates set, the body contains the document reference and the
    page, xPosition and yPosition as given, and has no placeholder and no
    positioning.  In both modes an absent type becomes signature. *)
Theorem addTag_mode_dispatch (envelopeId p : value) :
  (truthy (field "placeholder" p) = true ->
   field "page" p = VUndefined ->
   field "xPosition" p = VUndefined ->
   field "yPosition" p = VUndefined ->
   field "placeholder" (addTag_body envelopeId p) = field "placeholder" p
   /\ has_own "page" (addTag_body envelopeId p) = false
   /\ has_own "xPosition" (addTag_body envelopeId p) = false
   /\ has_own "yPosition" (addTag_body envelopeId p) = false
   /\ (if truthy (field "positioning" p)
       then field "positioning" (addTag_body envelopeId p) = field "positioning" p
       else has_own "positioning" (addTag_body envelopeId p) = false)
   /\ (if truthy (field "documentId" p)
       then field "document" (addTag_body envelopeId p)
            = document_ref envelopeId (field "documentId" p)
       else has_own "document" (addTag_body envelopeId p) = false))
  /\ (field "placeholder" p = VUndefined ->
      field "page" p <> VUndefined ->
      field "xPosition" p <> VUndefined ->
      field "yPosition" p <> VUndefined ->
      field "document" (addTag_body envelopeId p)
      = document_ref envelopeId (field "documentId" p)
      /\ field "page" (addTag_body envelopeId p) = field "page" p
      /\ field "xPosition" (addTag_body envelopeId p) = field "xPosition" p
      /\ field "yPosition" (addTag_body envelopeId p) = field "yPosition" p
      /\ has_own "placeholder" (addTag_body envelopeId p) = false
      /\ has_own "positioning" (addTag_body envelopeId p) = false)
  /\ (field "type" p = VUndefined ->
      field "type" (addTag_body envelopeId p) = VStr "signature").
Proof.
  split; [|split].
  - intros H _ _ _. apply addTag_placeholder_mode_fields. exact H.
  - intros H _ _ _.
    rewrite (addTag_coordinate_mode envelopeId p)
      by (rewrite H; reflexivity).
    repeat split.
  - intros H. destruct (truthy (field "placeholder" p)) eqn:Hp.
    + rewrite (addTag_placeholder_mode envelopeId p Hp).
      rewrite H. reflexivity.
    + rewrite (addTag_coordinate_mode envelopeId p Hp).
      rewrite H. reflexivity.
Qed.

(** What the specification states for C4: a placeholder that is set wins
    over coordinates that are set, which are dropped. *)
Definition addTag_placeholder_wins_by_presence : Prop :=
  forall envelopeId p : value,
    field "placeholder" p <> VUndefined ->
    field "page" p <> VUndefined \/ field "xPosition" p <> VUndefined
    \/ field "yPosition" p <> VUndefined ->
    field "placeholder" (addTag_body envelopeId p) = field "placeholder" p
    /\ field "page" (addTag_body envelopeId p) = VUndefined
    /\ field "xPosition" (addTag_body envelopeId p) = VUndefined
    /\ field "yPosition" (addTag_body envelopeId p) = VUndefined.

(** A tag request with fields of both modes, the placeholder empty. *)
Definition both_modes_empty_placeholder : value :=
  VObj [("recipientId", VStr "r1"); ("documentId", VStr "d1");
        ("placeholder", VStr ""); ("page", VNum 3);
        ("xPosition", VNum 100); ("yPosition", VNum 200)].

(** C4, as the specification states it, fails: with an empty placeholder
    and coordinates, the body is built in coordinate mode and carries the
    coordinates, not the placeholder. *)
Lemma addTag_both_modes_counterexample :
  field "placeholder" both_modes_empty_placeholder <> VUndefined
  /\ field "page" both_modes_empty_placeholder <> VUndefined
  /\ addTag_body (VStr "e1") both_modes_empty_placeholder
     = VObj [("recipient", VStr "/api/envelopes/e1/recipients/r1");
             ("type", VStr "signature");
             ("document", VStr "/api/envelopes/e1/documents/d1");
             ("page", VNum 3); ("xPosition", VNum 100); ("yPosition", VNum 200)]
  /\ ~ addTag_placeholder_wins_by_presence.
Proof.
  split; [discriminate|]. split; [discriminate|]. split; [reflexivity|].
  intros H.
  destruct (H (VStr "e1") both_modes_empty_placeholder) as [Hp _].
  - discriminate.
  - left. discriminate.
  - discriminate.
Qed.

(** C4, amended.  A request that carries a truthy placeholder (a string
    that is not empty) together with page, xPosition or yPosition is not
    rejected: [addTag] goes on to the POST, with a body built in
    placeholder mode, which contains the placeholder (and the positioning
    and the document reference when those are truthy) and has no page,
    xPosition or yPosition. *)
Theorem addTag_placeholder_wins (creds : credentials) (envelopeId p : value) :
  truthy (field "placeholder" p) = true ->
  field "page" p <> VUndefined \/ field "xPosition" p <> VUndefined
  \/ field "yPosition" p <> VUndefined ->
  addTag creds envelopeId p
  = apiCall "POST" ("/api/envelopes/" ++ ToString envelopeId ++ "/tags")
      (with_body creds (addTag_body envelopeId p))
  /\ addTag_body envelopeId p =
       VObj ([("recipient", recipient_ref envelopeId (field "recipientId" p));
              ("type", js_or (field "type" p) (VStr "signature"));
              ("placeholder", field "placeholder" p)]
             ++ (if truthy (field "positioning" p)
                 then [("positioning", field "positioning" p)] else [])
             ++ (if truthy (field "documentId" p)
                 then [("document", document_ref envelopeId (field "documentId" p))]
                 else []))
  /\ has_own "page" (addTag_body envelopeId p) = false
  /\ has_own "xPosition" (addTag_body envelopeId p) = false
  /\ has_own "yPosition" (addTag_body envelopeId p) = false.
Proof.
  intros H _.
  split; [|split].
  - unfold addTag, bind, destructure.
    rewrite (truthy_field_not_nullish _ _ H). reflexivity.
  - apply addTag_placeholder_mode. exact H.
  - destruct (addTag_placeholder_mode_fields envelopeId p H)
      as (_ & Hpage & Hx & Hy & _).
    repeat split; assumption.
Qed.

End Client.

(** ** Examples

    The theorems above, applied to concrete calls. *)

(** A platform for the examples: a string of decimal digits is the number
    it writes, the empty string is 0 and any other string is NaN. *)
Fixpoint digits_value (s : string) (acc : Z) : option Z :=
  match s with
  | EmptyString => Some acc
  | String c rest =>
      let n := Z.of_N (N_of_ascii c) in
      if (48 <=? n) && (n <=? 57)
      then digits_value rest (acc * 10 + (n - 48))
      else None
  end.

#[global] Instance digits_platform : Platform :=
  {| StringToNumber := fun s => digits_value s 0 |}.

(** *** Sample worlds *)

Definition sample_creds : credentials :=
  {| cred_accessKey := VStr "access-1"; cred_secretKey := VStr "secret-1" |}.

Definition json_reply (code : Z) (data : value) : response :=
  {| status := code; content_type := Some "application/json";
     body_bytes := text_of_json data; json := Some data |}.

(** The answer of the token endpoint to a good key pair. *)
Definition token_reply (token : string) (exp : Z) : response :=
  json_reply 200 (VObj [("token", VStr token); ("exp", VNum exp)]).

(** The answer of the token endpoint to a bad key pair. *)
Definition denied_reply : response :=
  json_reply 401 (VObj [("message", VStr "Invalid credentials")]).

(** A world whose cache holds the token T1, cached at second 1700000000
    with an hour to live; the clock reads [now] milliseconds and the
    network will answer with [net]. *)
Definition cached_world (now : Z) (net : list response) : world :=
  {| cachedToken := VStr "T1"; tokenExpiry := VNum (1700000000 + 3600);
     clock := now; sent := []; replies := net |}.

(** A download: a PDF, sent with status [code]. *)
Definition pdf_reply (code : Z) : response :=
  {| status := code; content_type := Some "application/pdf";
     body_bytes := "%PDF-1.7 signed"; json := None |}.

(** No content. *)
Definition empty_reply : response :=
  {| status := 204; content_type := None; body_bytes := ""; json := None |}.

(** A gateway answering for the service, with a page that is not JSON. *)
Definition bad_gateway_reply : response :=
  {| status := 502; content_type := Some "text/html";
     body_bytes := "<html><body>502 Bad Gateway</body></html>"; json := None |}.

Lemma getToken_cache_policy_witness :
  getToken (VStr "access-1") (VStr "secret-1")
    (cached_world 1700000000000 [token_reply "T2" 1700007200])
  = (Ok (VStr "T1"), cached_world 1700000000000 [token_reply "T2" 1700007200])
  /\ sent (snd (getToken (VStr "access-1") (VStr "secret-1")
                  (cached_world 1700003540000 [])))
     = [token_request (VStr "access-1") (VStr "secret-1")]
  /\ getToken (VStr "access-1") (VStr "secret-1")
       (cached_world 1700003541000 [token_reply "T2" 1700007200])
     = (Ok (VStr "T2"),
        {| cachedToken := VStr "T2"; tokenExpiry := VNum 1700007200;
           clock := 1700003541000;
           sent := [token_request (VStr "access-1") (VStr "secret-1")];
           replies := [] |})
  /\ getToken (VStr "access-1") (VStr "secret-1")
       (cached_world 1700003539999 [token_reply "T2" 1700007200])
     = (Ok (VStr "T1"), cached_world 1700003539999 [token_reply "T2" 1700007200])
  /\ sent (snd (getToken (VStr "access-1") (VStr "secret-1")
                  (cached_world 1700003541000 [token_reply "T2" 1700007200])))
     = [token_request (VStr "access-1") (VStr "secret-1")].
Proof.
  split; [|split; [|split; [|split]]].
  - apply (proj1 (getToken_cache_policy (VStr "access-1") (VStr "secret-1")
                    (cached_world 1700000000000 [token_reply "T2" 1700007200]))).
    split; [reflexivity|].
    exists (1700000000 + 3600). split; [reflexivity|].
    unfold Qlt; simpl; lia.
  - apply (proj1 (proj1 (proj2
             (getToken_cache_policy (VStr "access-1") (VStr "secret-1")
                (cached_world 1700003540000 [])))
             ltac:(apply cache_usable_false_iff; reflexivity))).
  - exact (proj2 (proj1 (proj2
             (getToken_cache_policy (VStr "access-1") (VStr "secret-1")
                (cached_world 1700003541000 [token_reply "T2" 1700007200])))
             ltac:(apply cache_usable_false_iff; reflexivity))
           (token_reply "T2" 1700007200) []
           (VObj [("token", VStr "T2"); ("exp", VNum 1700007200)])
           eq_refl eq_refl eq_refl eq_refl).
  - apply (proj1 (proj2 (proj2
             (getToken_cache_policy (VStr "access-1") (VStr "secret-1")
                (cached_world 1700003539999 [token_reply "T2" 1700007200])))
             1700000000 eq_refl eq_refl)).
    simpl; lia.
  - apply (proj2 (proj2 (proj2
             (getToken_cache_policy (VStr "access-1") (VStr "secret-1")
                (cached_world 1700003541000 [token_reply "T2" 1700007200])))
             1700000000 eq_refl eq_refl)).
    simpl; lia.
Defined.

Lemma getToken_failed_exchange_keeps_cache_witness :
  fst (getToken (VStr "access-1") (VStr "secret-1")
         (cached_world 1700003600000 [denied_reply]))
  = Throw (Error ("Auth failed (401): " ++ body_bytes denied_reply))
  /\ cachedToken (snd (getToken (VStr "access-1") (VStr "secret-1")
                         (cached_world 1700003600000 [denied_reply])))
     = VStr "T1"
  /\ tokenExpiry (snd (getToken (VStr "access-1") (VStr "secret-1")
                         (cached_world 1700003600000 [denied_reply])))
     = VNum 1700003600
  /\ sent (snd (getToken (VStr "access-1") (VStr "secret-1")
                  (cached_world 1700003600000 [denied_reply])))
     = [token_request (VStr "access-1") (VStr "secret-1")].
Proof.
  apply (getToken_failed_exchange_keeps_cache (VStr "access-1") (VStr "secret-1")
           (cached_world 1700003600000 [denied_reply]) denied_reply []).
  - apply cache_usable_false_iff. reflexivity.
  - reflexivity.
  - reflexivity.
Defined.

Lemma token_cache_not_keyed_by_credentials_witness :
  getToken (VStr "access-2") (VStr "secret-2") (cached_world 1700000000000 [])
  = getToken (VStr "access-1") (VStr "secret-1") (cached_world 1700000000000 [])
  /\ getToken (VStr "access-2") (VStr "secret-2")
       (at_time 1000060000
          (snd (getToken (VStr "access-1") (VStr "secret-1")
                  (initial 1000000000 [token_reply "T1" 1003600]))))
     = (Ok (VStr "T1"),
        {| cachedToken := VStr "T1"; tokenExpiry := VNum 1003600;
           clock := 1000060000;
           sent := [token_request (VStr "access-1") (VStr "secret-1")];
           replies := [] |}).
Proof.
  split.
  - apply (proj1 (token_cache_not_keyed_by_credentials
                    (VStr "access-1") (VStr "secret-1")
                    (VStr "access-2") (VStr "secret-2")
                    (cached_world 1700000000000 []))).
    split; [reflexivity|].
    exists (1700000000 + 3600). split; [reflexivity|].
    unfold Qlt; simpl; lia.
  - apply (proj2 (token_cache_not_keyed_by_credentials
                    (VStr "access-1") (VStr "secret-1")
                    (VStr "access-2") (VStr "secret-2")
                    (initial 1000000000 [token_reply "T1" 1003600]))
             (VStr "T1")
             (snd (getToken (VStr "access-1") (VStr "secret-1")
                     (initial 1000000000 [token_reply "T1" 1003600])))
             1000060000).
    + reflexivity.
    + split; [reflexivity|].
      exists 1003600. split; [reflexivity|].
      unfold Qlt; simpl; lia.
Defined.

Lemma apiCall_response_dispatch_witness :
  fst (apiCall "GET" "/api/envelopes/e1/download?output=combined&include_log=true"
         (of_creds sample_creds) (cached_world 1700000000000 [pdf_reply 500]))
  = Ok (Binary "application/pdf" "%PDF-1.7 signed")
  /\ fst (apiCall "DELETE" "/api/envelopes/e1" (of_creds sample_creds)
            (cached_world 1700000000000 [empty_reply]))
     = Ok (Data (VObj [("success", VBool true)]))
  /\ fst (apiCall "GET" "/api/account" (of_creds sample_creds)
            (cached_world 1700000000000
               [json_reply 200 (VObj [("credits", VNum 12)])]))
     = Ok (Data (VObj [("credits", VNum 12)])).
Proof.
  split; [|split].
  - exact (proj1 (apiCall_response_dispatch
             "GET" "/api/envelopes/e1/download?output=combined&include_log=true"
             (of_creds sample_creds)
             (cached_world 1700000000000 [pdf_reply 500])
             (cached_world 1700000000000 [pdf_reply 500])
             (VStr "T1") (pdf_reply 500) [] eq_refl eq_refl) eq_refl).
  - exact (proj1 (proj2 (apiCall_response_dispatch
             "DELETE" "/api/envelopes/e1" (of_creds sample_creds)
             (cached_world 1700000000000 [empty_reply])
             (cached_world 1700000000000 [empty_reply])
             (VStr "T1") empty_reply [] eq_refl eq_refl)) eq_refl eq_refl).
  - apply (proj2 (proj2 (apiCall_response_dispatch
             "GET" "/api/account" (of_creds sample_creds)
             (cached_world 1700000000000
                [json_reply 200 (VObj [("credits", VNum 12)])])
             (cached_world 1700000000000
                [json_reply 200 (VObj [("credits", VNum 12)])])
             (VStr "T1") (json_reply 200 (VObj [("credits", VNum 12)])) []
             eq_refl eq_refl)) eq_refl).
    + discriminate.
    + reflexivity.
    + reflexivity.
Defined.

(** C7.  The answer of a gateway, status 502 with an HTML page: the call
    does fail, but in [res.json()], before the status is looked at.  The
    error is the parser's; it carries neither the status 502 nor the raw
    body. *)
Theorem apiCall_error_body_not_json :
  fst (getAccount sample_creds (cached_world 1700000000000 [bad_gateway_reply]))
  = Throw SyntaxError
  /\ ok bad_gateway_reply = false
  /\ is_binary (contentType_of bad_gateway_reply) = false.
Proof. repeat split. Qed.

Lemma download_output_default_witness :
  getDownloadUrl_path (VStr "e1") (VObj [("output", VUndefined)])
  = "/api/envelopes/e1/download-url?output=combined"
  /\ downloadEnvelope_path (VStr "e1") (VObj [])
     = "/api/envelopes/e1/download?output=combined&include_log=true"
  /\ getDownloadUrl_path (VStr "e1") (VObj [("output", VStr "only_log")])
     = "/api/envelopes/e1/download-url?output=only_log"
  /\ downloadEnvelope_path (VStr "e1")
       (VObj [("output", VStr "separate"); ("includeLog", VBool false)])
     = "/api/envelopes/e1/download?output=separate&include_log=false"
  /\ getDownloadUrl sample_creds (VStr "e1") (VObj [("output", VStr "separate")])
     = apiCall "GET" "/api/envelopes/e1/download-url?output=separate"
         (of_creds sample_creds).
Proof.
  split; [|split; [|split; [|split]]].
  - exact (proj1 (proj1 (download_output_default sample_creds (VStr "e1")
                           (VObj [("output", VUndefined)])) eq_refl)).
  - exact (proj2 (proj1 (download_output_default sample_creds (VStr "e1")
                           (VObj [])) eq_refl)).
  - exact (proj1 (proj1 (proj2 (download_output_default sample_creds (VStr "e1")
                                  (VObj [("output", VStr "only_log")])))
                    "only_log" eq_refl)).
  - exact (proj2 (proj1 (proj2 (download_output_default sample_creds (VStr "e1")
             (VObj [("output", VStr "separate"); ("includeLog", VBool false)])))
                    "separate" eq_refl)).
  - exact (proj1 (proj1 (proj2 (proj2 (download_output_default sample_creds
             (VStr "e1") (VObj [("output", VStr "separate")])))) eq_refl)).
Defined.

Lemma createEnvelope_omits_absent_fields_witness :
  has_own "emailBody"
    (createEnvelope_body (VObj [("name", VStr "X"); ("senderName", VStr "Ops")]))
  = false
  /\ createEnvelope_body (VObj [("name", VStr "Lease"); ("emailBody", VUndefined)])
     = VObj [("name", VStr "Lease")]
  /\ addRecipient_body
       (VObj [("role", VStr "signer"); ("name", VStr "Ann");
              ("email", VStr "ann@example.org")])
     = VObj [("role", VStr "signer"); ("name", VStr "Ann");
             ("email", VStr "ann@example.org")].
Proof.
  split; [|split].
  - exact (proj1 (createEnvelope_omits_absent_fields sample_creds
             (VObj [("name", VStr "X"); ("senderName", VStr "Ops")]))
             "emailBody" (or_introl eq_refl) eq_refl).
  - exact (proj1 (proj2 (createEnvelope_omits_absent_fields sample_creds
             (VObj [("name", VStr "Lease"); ("emailBody", VUndefined)])))
             eq_refl eq_refl eq_refl eq_refl).
  - exact (proj2 (proj2 (proj2 (proj2 (proj2 (proj2
             (createEnvelope_omits_absent_fields sample_creds
                (VObj [("role", VStr "signer"); ("name", VStr "Ann");
                       ("email", VStr "ann@example.org")]))))))
             eq_refl)).
Defined.

Lemma listEnvelopes_query_truthy_filters_witness :
  In "status"
    (map fst (listEnvelopes_query (VObj [("status", VStr "sent"); ("page", VNum 2)])))
  /\ ~ In "itemsPerPage"
         (map fst (listEnvelopes_query
                     (VObj [("status", VStr "sent"); ("page", VNum 2)])))
  /\ listEnvelopes_path (VObj [("status", VStr "sent"); ("page", VNum 2)])
     = "/api/envelopes?status=sent&page=2".
Proof.
  split; [|split].
  - apply (proj2 (proj1 (proj2 (listEnvelopes_query_truthy_filters sample_creds
             (VObj [("status", VStr "sent"); ("page", VNum 2)]))) "status")).
    split; [left; reflexivity | reflexivity].
  - exact (proj1 (proj2 (proj2 (listEnvelopes_query_truthy_filters sample_creds
             (VObj [("status", VStr "sent"); ("page", VNum 2)]))))
             "itemsPerPage" eq_refl).
  - exact (proj1 (proj2 (proj2 (proj2 (listEnvelopes_query_truthy_filters
             sample_creds (VObj [("status", VStr "sent"); ("page", VNum 2)])))))).
Defined.

Lemma addTag_mode_dispatch_witness :
  field "placeholder"
    (addTag_body (VStr "e1")
       (VObj [("recipientId", VStr "r1"); ("placeholder", VStr "{sign_here}");
              ("positioning", VStr "bottom_left")]))
  = VStr "{sign_here}"
  /\ has_own "page"
       (addTag_body (VStr "e1")
          (VObj [("recipientId", VStr "r1"); ("placeholder", VStr "{sign_here}");
                 ("positioning", VStr "bottom_left")]))
     = false
  /\ field "page"
       (addTag_body (VStr "e1")
          (VObj [("recipientId", VStr "r1"); ("documentId", VStr "d1");
                 ("page", VNum 5); ("xPosition", VNum 320);
                 ("yPosition", VNum 680)]))
     = VNum 5
  /\ has_own "placeholder"
       (addTag_body (VStr "e1")
          (VObj [("recipientId", VStr "r1"); ("documentId", VStr "d1");
                 ("page", VNum 5); ("xPosition", VNum 320);
                 ("yPosition", VNum 680)]))
     = false
  /\ field "type"
       (addTag_body (VStr "e1")
          (VObj [("recipientId", VStr "r1"); ("placeholder", VStr "{sign_here}")]))
     = VStr "signature".
Proof.
  pose proof (proj1 (addTag_mode_dispatch (VStr "e1")
      (VObj [("recipientId", VStr "r1"); ("placeholder", VStr "{sign_here}");
             ("positioning", VStr "bottom_left")]))
      eq_refl eq_refl eq_refl eq_refl) as Hplace.
  assert (Hset : forall n : Z, VNum n <> VUndefined) by discriminate.
  pose proof (proj1 (proj2 (addTag_mode_dispatch (VStr "e1")
      (VObj [("recipientId", VStr "r1"); ("documentId", VStr "d1");
             ("page", VNum 5); ("xPosition", VNum 320); ("yPosition", VNum 680)])))
      eq_refl (Hset 5) (Hset 320) (Hset 680)) as Hcoord.
  pose proof (proj2 (proj2 (addTag_mode_dispatch (VStr "e1")
      (VObj [("recipientId", VStr "r1"); ("placeholder", VStr "{sign_here}")])))
      eq_refl) as Htype.
  split; [exact (proj1 Hplace)|].
  split; [exact (proj1 (proj2 Hplace))|].
  split; [exact (proj1 (proj2 Hcoord))|].
  split; [exact (proj1 (proj2 (proj2 (proj2 (proj2 Hcoord))))) | exact Htype].
Defined.

(** A tag request with fields of both modes. *)
Definition both_modes : value :=
  VObj [("recipientId", VStr "r1"); ("documentId", VStr "d1");
        ("placeholder", VStr "{sign_here}"); ("page", VNum 3);
        ("xPosition", VNum 100); ("yPosition", VNum 200)].

Lemma addTag_placeholder_wins_witness :
  addTag sample_creds (VStr "e1") both_modes
  = apiCall "POST" "/api/envelopes/e1/tags"
      (with_body sample_creds (addTag_body (VStr "e1") both_modes))
  /\ addTag_body (VStr "e1") both_modes
     = VObj [("recipient", VStr "/api/envelopes/e1/recipients/r1");
             ("type", VStr "signature");
             ("placeholder", VStr "{sign_here}");
             ("document", VStr "/api/envelopes/e1/documents/d1")]
  /\ has_own "page" (addTag_body (VStr "e1") both_modes) = false
  /\ has_own "xPosition" (addTag_body (VStr "e1") both_modes) = false
  /\ has_own "yPosition" (addTag_body (VStr "e1") both_modes) = false.
Proof.
  assert (Hset : field "page" both_modes <> VUndefined) by discriminate.
  exact (addTag_placeholder_wins sample_creds (VStr "e1") both_modes
           eq_refl (or_introl Hset)).
Defined.

(** * Further properties of the client

    What the code shows beyond the statements above: how the token
    manager and the request primitive behave at their edges, and how the
    operations compose. *)

Section ClientFacts.

Context {P : Platform}.

(** ** Token manager *)

Lemma cache_usable_hit_or_miss (ak sk : value) (w w1 : world) (e : exn) :
  getToken ak sk w = (Throw e, w1) -> cache_usable w = false.
Proof.
  destruct (cache_usable w) eqn:Hu; [|reflexivity].
  rewrite (getToken_hit ak sk w Hu). discriminate.
Qed.

(** X1.  However [getToken] fails (the exchange is refused, the network
    gives no answer, the answer is not JSON, the answer is the JSON null),
    the cached token and expiry are what they were, and exactly the one
    exchange request was sent. *)
Theorem getToken_failure_keeps_cache (ak sk : value) (w w1 : world) (e : exn) :
  getToken ak sk w = (Throw e, w1) ->
  cachedToken w1 = cachedToken w
  /\ tokenExpiry w1 = tokenExpiry w
  /\ sent w1 = (sent w ++ [token_request ak sk])%list.
Proof.
  intros H.
  destruct (getToken_throw_keeps_cache ak sk w w1 e H) as [Hc He].
  split; [exact Hc|]. split; [exact He|].
  pose proof (getToken_miss_sent ak sk w (cache_usable_hit_or_miss ak sk w w1 e H))
    as Hs.
  rewrite H in Hs. exact Hs.
Qed.


(** X3.  A token whose expiry is no more than 60 seconds after the time
    of the exchange is stored and returned, but no later call reuses it. *)
Theorem getToken_short_lived_token_never_reused (ak sk : value) (w : world)
  (res : response) (rest : list response) (data : value) (e : Z) :
  ~ token_valid w -> replies w = res :: rest -> ok res = true ->
  json res = Some data -> nullish data = false ->
  field "exp" data = VNum e -> (e - 60) * 1000 <= clock w ->
  fst (getToken ak sk w) = Ok (field "token" data)
  /\ tokenExpiry (snd (getToken ak sk w)) = VNum e
  /\ forall later : Z,
       clock w <= later -> ~ token_valid (at_time later (snd (getToken ak sk w))).
Proof.
  intros Hv Hr Hok Hj Hn He Hshort. apply cache_usable_false_iff in Hv.
  rewrite (getToken_miss_stored ak sk w res rest data Hv Hr Hok Hj Hn).
  split; [reflexivity|]. split; [exact He|].
  intros later Hl Hvalid. apply cache_usable_iff in Hvalid.
  unfold cache_usable in Hvalid. simpl in Hvalid.
  rewrite He, before_expiry_num in Hvalid.
  apply andb_true_iff in Hvalid. destruct Hvalid as [_ Hlt].
  apply Z.ltb_lt in Hlt. lia.
Qed.

(** ** Request execution *)

(** With the token in hand and no answer from the network, [apiCall]
    fails after sending its request. *)
Lemma apiCall_no_answer (method path : string) (o : options) (w w1 : world)
  (token : value) :
  getToken (accessKey o) (secretKey o) w = (Ok token, w1) ->
  replies w1 = [] ->
  apiCall method path o w =
    (Throw FetchFailed,
     {| cachedToken := cachedToken w1; tokenExpiry := tokenExpiry w1;
        clock := clock w1;
        sent := sent w1 ++ [api_request token method path o];
        replies := [] |}).
Proof.
  intros Hg Hr. unfold apiCall. unfold bind at 1. rewrite Hg.
  unfold bind at 1. unfold fetch. rewrite Hr. reflexivity.
Qed.

(** With a valid cached token, the world after [apiCall]. *)
Lemma apiCall_warm_world (method path : string) (o : options) (w : world) :
  token_valid w ->
  sent (snd (apiCall method path o w))
  = (sent w ++ [api_request (cachedToken w) method path o])%list
  /\ cachedToken (snd (apiCall method path o w)) = cachedToken w
  /\ tokenExpiry (snd (apiCall method path o w)) = tokenExpiry w.
Proof.
  intros Hv. apply cache_usable_iff in Hv.
  pose proof (getToken_hit (accessKey o) (secretKey o) w Hv) as Hg.
  destruct (replies w) as [|res rest] eqn:Hr.
  - rewrite (apiCall_no_answer method path o w w (cachedToken w) Hg Hr).
    repeat split.
  - rewrite (apiCall_after_token method path o w w (cachedToken w) res rest Hg Hr).
    destruct (is_binary (contentType_of res)); [repeat split|].
    destruct (status res =? 204); [repeat split|].
    unfold bind, res_json. destruct (json res) as [data|]; [|repeat split].
    simpl. destruct (negb (ok res)); repeat split.
Qed.

(** X4.  With a valid cached token [apiCall] sends exactly one request,
    which bears that token, and leaves the cache alone, whatever the
    answer is and also when there is none. *)
Theorem apiCall_warm_sends_one_request (method path : string) (o : options)
  (w : world) :
  token_valid w ->
  sent (snd (apiCall method path o w))
  = (sent w ++ [api_request (cachedToken w) method path o])%list
  /\ cachedToken (snd (apiCall method path o w)) = cachedToken w
  /\ tokenExpiry (snd (apiCall method path o w)) = tokenExpiry w.
Proof.
  intros Hv.
  destruct (apiCall_warm_world method path o w Hv) as (Hs & Hc & He).
  split; [exact Hs|]. split; [exact Hc | exact He].
Qed.

(** Without a valid cached token and with the exchange answered, the
    world after [apiCall]. *)
Lemma apiCall_cold_world (method path : string) (o : options)
  (w : world) (res : response) (rest : list response) (data : value) :
  ~ token_valid w -> replies w = res :: rest -> ok res = true ->
  json res = Some data -> nullish data = false ->
  sent (snd (apiCall method path o w))
  = (sent w ++ [token_request (accessKey o) (secretKey o);
                api_request (field "token" data) method path o])%list
  /\ cachedToken (snd (apiCall method path o w)) = field "token" data
  /\ tokenExpiry (snd (apiCall method path o w)) = field "exp" data.
Proof.
  intros Hv Hr Hok Hj Hn. apply cache_usable_false_iff in Hv.
  pose proof (getToken_miss_stored (accessKey o) (secretKey o) w res rest data
                Hv Hr Hok Hj Hn) as Hg.
  assert (Happ : forall (l : list request) (a b : request),
             ((l ++ [a]) ++ [b] = l ++ [a; b])%list)
    by (intros; rewrite <- app_assoc; reflexivity).
  destruct rest as [|res2 rest2].
  - rewrite (apiCall_no_answer method path o w _ _ Hg eq_refl).
    simpl. rewrite Happ. repeat split.
  - rewrite (apiCall_after_token method path o w _ _ res2 rest2 Hg eq_refl).
    simpl. rewrite Happ.
    destruct (is_binary (contentType_of res2)); [repeat split|].
    destruct (status res2 =? 204); [repeat split|].
    unfold bind, res_json. destruct (json res2) as [d2|]; [|repeat split].
    simpl. destruct (negb (ok res2)); repeat split.
Qed.

(** X5.  Without a valid cached token, and with the exchange answered by
    a success status and a JSON body, [apiCall] sends exactly two
    requests, the exchange and then the API request bearing the token just
    received, and the cache holds the new token and expiry, whatever the
    answer to the API request is. *)
Theorem apiCall_cold_sends_two_requests (method path : string) (o : options)
  (w : world) (res : response) (rest : list response) (data : value) :
  ~ token_valid w -> replies w = res :: rest -> ok res = true ->
  json res = Some data -> nullish data = false ->
  sent (snd (apiCall method path o w))
  = (sent w ++ [token_request (accessKey o) (secretKey o);
                api_request (field "token" data) method path o])%list
  /\ cachedToken (snd (apiCall method path o w)) = field "token" data
  /\ tokenExpiry (snd (apiCall method path o w)) = field "exp" data.
Proof.
  intros Hv Hr Hok Hj Hn.
  destruct (apiCall_cold_world method path o w res rest data Hv Hr Hok Hj Hn)
    as (Hs & Hc & He).
  split; [exact Hs|]. split; [exact Hc | exact He].
Qed.

(** X22.  Two operations in a row on a cache that holds no valid token:
    when the exchange gives a truthy token with the expiry [e] and the
    second operation starts before [e - 60] seconds, three requests are
    sent in all, the exchange and the two API requests, both bearing the
    one token, also when the second operation is given another key pair. *)
Theorem two_operations_share_one_exchange (m1 p1 m2 p2 : string) (o1 o2 : options)
  (w : world) (res : response) (rest : list response) (data : value)
  (e later : Z) :
  ~ token_valid w -> replies w = res :: rest -> ok res = true ->
  json res = Some data -> nullish data = false ->
  truthy (field "token" data) = true -> field "exp" data = VNum e ->
  later < (e - 60) * 1000 ->
  sent (snd (apiCall m2 p2 o2 (at_time later (snd (apiCall m1 p1 o1 w)))))
  = (sent w ++ [token_request (accessKey o1) (secretKey o1);
                api_request (field "token" data) m1 p1 o1;
                api_request (field "token" data) m2 p2 o2])%list.
Proof.
  intros Hv Hr Hok Hj Hn Ht He Hl.
  destruct (apiCall_cold_world m1 p1 o1 w res rest data Hv Hr Hok Hj Hn)
    as (Hs & Hc & Hx).
  assert (Hvalid : token_valid (at_time later (snd (apiCall m1 p1 o1 w)))).
  { apply cache_usable_iff. unfold cache_usable. simpl.
    rewrite Hc, Hx, Ht, He, before_expiry_num. apply Z.ltb_lt. exact Hl. }
  rewrite (proj1 (apiCall_warm_world m2 p2 o2 _ Hvalid)).
  simpl. rewrite Hs, Hc, <- app_assoc. reflexivity.
Qed.

(** X23.  With a valid cached token the key pair plays no part: the
    request that [apiCall] sends is the same for any two key pairs, and
    holds neither key. *)
Theorem apiCall_warm_request_ignores_keys (method path : string)
  (c1 c2 : credentials) (b : value) (w : world) :
  token_valid w ->
  sent (snd (apiCall method path (with_body c1 b) w))
  = sent (snd (apiCall method path (with_body c2 b) w)).
Proof.
  intros Hv.
  rewrite (proj1 (apiCall_warm_world method path (with_body c1 b) w Hv)).
  rewrite (proj1 (apiCall_warm_world method path (with_body c2 b) w Hv)).
  reflexivity.
Qed.

Lemma prefix_app (a b : string) : String.prefix a (a ++ b) = true.
Proof.
  induction a as [|c a IH]; cbn [append String.prefix].
  - destruct b; reflexivity.
  - destruct (ascii_dec c c) as [_|Hne]; [exact IH|contradiction].
Qed.

Lemma includes_app (sub a b : string) : includes sub (a ++ sub ++ b) = true.
Proof.
  induction a as [|c a IH]; cbn [append].
  - destruct (sub ++ b) eqn:Hs; cbn [includes];
      rewrite <- Hs, prefix_app; reflexivity.
  - cbn [includes]. rewrite IH. apply orb_true_r.
Qed.

(** X24.  The test for a download is a search in the content type: a
    content type that contains application/pdf or application/zip
    anywhere, for one with parameters after the media type, is a
    download, whatever surrounds it. *)
Theorem is_binary_anywhere (before after : string) :
  is_binary (before ++ "application/pdf" ++ after) = true
  /\ is_binary (before ++ "application/zip" ++ after) = true.
Proof.
  unfold is_binary. rewrite !includes_app. split; [reflexivity|].
  apply orb_true_r.
Qed.

(** X6.  When the token cannot be obtained, [apiCall] fails with the
    error of [getToken] and the API request is never sent: the exchange is
    the only request. *)
Theorem apiCall_without_token_sends_nothing (method path : string) (o : options)
  (w w1 : world) (e : exn) :
  getToken (accessKey o) (secretKey o) w = (Throw e, w1) ->
  apiCall method path o w = (Throw e, w1)
  /\ sent w1 = (sent w ++ [token_request (accessKey o) (secretKey o)])%list.
Proof.
  intros Hg. split.
  - unfold apiCall. unfold bind at 1. rewrite Hg. reflexivity.
  - pose proof (getToken_miss_sent (accessKey o) (secretKey o) w
                  (cache_usable_hit_or_miss _ _ w w1 e Hg)) as Hs.
    rewrite Hg in Hs. exact Hs.
Qed.

(** X7.  An answer that is not a download, with a status outside 200..299
    and a JSON body, fails the call with an error whose message is
    [API error (status): ] followed by the compact JSON text of the body. *)
Theorem apiCall_http_error_message (method path : string) (o : options)
  (w w1 : world) (token : value) (res : response) (rest : list response)
  (data : value) :
  getToken (accessKey o) (secretKey o) w = (Ok token, w1) ->
  replies w1 = res :: rest ->
  is_binary (contentType_of res) = false ->
  status res < 200 \/ 299 < status res ->
  json res = Some data ->
  fst (apiCall method path o w)
  = Throw (Error ("API error (" ++ string_of_Z (status res) ++ "): "
                  ++ text_of_json data)).
Proof.
  intros Hg Hr Hb Hs Hj.
  rewrite (apiCall_after_token method path o w w1 token res rest Hg Hr).
  rewrite Hb.
  replace (status res =? 204) with false by (symmetry; apply Z.eqb_neq; lia).
  unfold bind, res_json. rewrite Hj. simpl.
  replace (ok res) with false; [reflexivity|].
  symmetry. unfold ok. apply andb_false_iff.
  destruct Hs; [left; apply Z.leb_gt | right; apply Z.leb_gt]; lia.
Qed.

(** X8.  A success status does not save an answer whose body is not JSON:
    unless the answer is a download or has status 204, the call fails in
    the parser and returns nothing. *)
Theorem apiCall_success_status_needs_json (method path : string) (o : options)
  (w w1 : world) (token : value) (res : response) (rest : list response) :
  getToken (accessKey o) (secretKey o) w = (Ok token, w1) ->
  replies w1 = res :: rest ->
  ok res = true -> status res <> 204 ->
  is_binary (contentType_of res) = false ->
  json res = None ->
  fst (apiCall method path o w) = Throw SyntaxError.
Proof.
  intros Hg Hr _ Hs Hb Hj.
  rewrite (apiCall_after_token method path o w w1 token res rest Hg Hr).
  rewrite Hb. apply Z.eqb_neq in Hs. rewrite Hs.
  unfold bind, res_json. rewrite Hj. reflexivity.
Qed.

End ClientFacts.

(** ** Request bodies *)

Lemma JSON_stringify_defined (v : value) :
  v <> VUndefined -> JSON_stringify v = Some (text_of_json v).
Proof.
  intros H. unfold text_of_json.
  destruct v as [| |[|]| | | |]; try reflexivity. congruence.
Qed.

Lemma truthy_defined (v : value) : truthy v = true -> v <> VUndefined.
Proof. intros H ->. discriminate. Qed.

Lemma has_own_In (k : string) (props : list (string * value)) :
  has_own k (VObj props) = true -> In k (map fst props).
Proof.
  simpl. induction props as [|[k' v] rest IH]; simpl; [discriminate|].
  destruct (String.eqb_spec k k') as [->|Hne]; [left; reflexivity|].
  intros H. right. apply IH. exact H.
Qed.

(** X9.  The body of [createEnvelope] has the property [name] and, of the
    four optional fields, exactly those whose value is truthy, each as it
    was given, and no other property: a field given as the empty string
    or as null is left out like one that is not given. *)
Theorem createEnvelope_body_properties (p : value) :
  has_own "name" (createEnvelope_body p) = true
  /\ field "name" (createEnvelope_body p) = field "name" p
  /\ (forall k : string,
        In k envelope_optional_fields ->
        has_own k (createEnvelope_body p) = truthy (field k p)
        /\ (truthy (field k p) = true ->
            field k (createEnvelope_body p) = field k p))
  /\ (forall k : string,
        has_own k (createEnvelope_body p) = true ->
        k = "name" \/ In k envelope_optional_fields).
Proof.
  unfold createEnvelope_body, envelope_optional_fields.
  destruct (truthy (field "emailBody" p)) eqn:H1;
    destruct (truthy (field "emailBodyCompleted" p)) eqn:H2;
    destruct (truthy (field "senderName" p)) eqn:H3;
    destruct (truthy (field "senderEmail" p)) eqn:H4;
    (split; [reflexivity|]; split; [reflexivity|]; split;
     [ intros k Hin; simpl in Hin;
       destruct Hin as [<-|[<-|[<-|[<-|[]]]]];
       rewrite ?H1, ?H2, ?H3, ?H4;
       (split; [reflexivity | intros Ht; reflexivity || discriminate Ht])
     | intros k Hk; apply has_own_In in Hk; simpl in Hk |- *;
       repeat (destruct Hk as [<-|Hk]; [auto 10|]); destruct Hk ]).
Qed.

(** X10.  In coordinate mode [addTag] does not check the coordinates: when
    page, xPosition and yPosition are all missing, the text sent is the
    JSON of the recipient, the type and the document reference alone. *)
Theorem addTag_missing_coordinates_vanish (creds : credentials)
  (envelopeId p : value) :
  truthy (field "placeholder" p) = false ->
  field "page" p = VUndefined ->
  field "xPosition" p = VUndefined ->
  field "yPosition" p = VUndefined ->
  request_body (with_body creds (addTag_body envelopeId p))
  = TextBody
      (text_of_json
         (VObj [("recipient", recipient_ref envelopeId (field "recipientId" p));
                ("type", js_or (field "type" p) (VStr "signature"));
                ("document", document_ref envelopeId (field "documentId" p))])).
Proof.
  intros Hp Hpage Hx Hy.
  rewrite (addTag_coordinate_mode envelopeId p Hp), Hpage, Hx, Hy.
  unfold request_body, text_of_json. simpl.
  destruct (JSON_stringify (js_or (field "type" p) (VStr "signature")));
    reflexivity.
Qed.

(** X11.  [addTagByPlaceholder] has one shape.  The placeholder goes into
    the body as it is, also when it is empty; positioning goes in exactly
    when it is truthy; the list of documents goes in, as applyToDocuments,
    exactly when it is truthy, which an empty list is; there is never a
    document, page, xPosition or yPosition. *)
Theorem addTagByPlaceholder_body_properties (envelopeId p : value) :
  field "placeholder" (addTagByPlaceholder_body envelopeId p) = field "placeholder" p
  /\ has_own "placeholder" (addTagByPlaceholder_body envelopeId p) = true
  /\ has_own "positioning" (addTagByPlaceholder_body envelopeId p)
     = truthy (field "positioning" p)
  /\ has_own "applyToDocuments" (addTagByPlaceholder_body envelopeId p)
     = truthy (field "documentIds" p)
  /\ (truthy (field "documentIds" p) = true ->
      field "applyToDocuments" (addTagByPlaceholder_body envelopeId p)
      = field "documentIds" p)
  /\ (field "documentIds" p = VArr [] ->
      field "applyToDocuments" (addTagByPlaceholder_body envelopeId p) = VArr [])
  /\ has_own "document" (addTagByPlaceholder_body envelopeId p) = false
  /\ has_own "page" (addTagByPlaceholder_body envelopeId p) = false
  /\ has_own "xPosition" (addTagByPlaceholder_body envelopeId p) = false
  /\ has_own "yPosition" (addTagByPlaceholder_body envelopeId p) = false.
Proof.
  assert (Hempty : field "documentIds" p = VArr [] ->
                   truthy (field "documentIds" p) = true)
    by (intros H; rewrite H; reflexivity).
  unfold addTagByPlaceholder_body.
  destruct (truthy (field "positioning" p));
    destruct (truthy (field "documentIds" p));
    (split; [reflexivity|]; split; [reflexivity|]; split; [reflexivity|];
     split; [reflexivity|];
     split; [intros H; reflexivity || discriminate H|];
     split; [intros H; (rewrite <- H; reflexivity) || discriminate (Hempty H)|];
     repeat split).
Qed.

Section OperationFacts.

Context {P : Platform}.

(** X12.  The identifiers go into the path as they are, with no escaping,
    so an identifier that contains a slash reaches another resource:
    [getEnvelope] on [e/documents] is the request of [listDocuments] on
    [e], and likewise for the recipients, the tags and one recipient. *)
Theorem getEnvelope_identifier_is_not_escaped (creds : credentials)
  (e r : string) :
  getEnvelope creds (VStr (e ++ "/documents")) = listDocuments creds (VStr e)
  /\ getEnvelope creds (VStr (e ++ "/recipients")) = listRecipients creds (VStr e)
  /\ getEnvelope creds (VStr (e ++ "/tags")) = listTags creds (VStr e)
  /\ getEnvelope creds (VStr (e ++ "/recipients/" ++ r))
     = getRecipient creds (VStr e) (VStr r).
Proof. repeat split. Qed.

(** X13.  [updateEnvelope] sends the updates as JSON text when they are
    truthy, so an empty object is sent as an empty object; when they are
    missing (or null, or another falsy value) the PATCH goes out with no
    body, still announcing JSON. *)
Theorem updateEnvelope_request (creds : credentials) (envelopeId updates token : value) :
  updateEnvelope creds envelopeId updates
  = apiCall "PATCH" ("/api/envelopes/" ++ ToString envelopeId)
      (with_body creds updates)
  /\ req_body (api_request token "PATCH" ("/api/envelopes/" ++ ToString envelopeId)
                 (with_body creds updates))
     = (if truthy updates then TextBody (text_of_json updates) else NoBody)
  /\ req_headers (api_request token "PATCH" ("/api/envelopes/" ++ ToString envelopeId)
                    (with_body creds updates))
     = [("Authorization", "Bearer " ++ ToString token);
        ("Content-Type", "application/json")].
Proof.
  split; [reflexivity|]. split; [|reflexivity].
  unfold api_request, request_body. simpl.
  destruct (truthy updates) eqn:Ht; [|reflexivity].
  rewrite (JSON_stringify_defined updates (truthy_defined updates Ht)).
  reflexivity.
Qed.

End OperationFacts.

(** * The tool layer

    The server registers one handler for each tool.  A handler takes the
    arguments that the schema has validated, an object, calls one
    operation of the client inside [try], and returns [result(data)], or
    [errorResult(err)] from the [catch]. *)

(** The line feed, code 10. *)
Definition newline : string := String (ascii_of_N 10) "".

(** [JSON.stringify(v, null, 2)] at the indentation [indent]: a member or
    an element on a line of its own, two spaces deeper, a colon and a
    space after a name; an array with no element is written with its two
    brackets alone, and so is an object that has no member left. *)
Fixpoint JSON_stringify_pretty (indent : string) (v : value) : option string :=
  match v with
  | VUndefined => None
  | VNull => Some "null"
  | VBool true => Some "true"
  | VBool false => Some "false"
  | VNum n => Some (string_of_Z n)
  | VStr s => Some (json_quote s)
  | VArr items =>
      let inner := indent ++ "  " in
      match items with
      | [] => Some "[]"
      | _ =>
          Some ("[" ++ newline ++ inner ++
                join ("," ++ newline ++ inner)
                  ((fix elems (l : list value) : list string :=
                      match l with
                      | [] => []
                      | e :: l' =>
                          match JSON_stringify_pretty inner e with
                          | Some t => t
                          | None => "null"
                          end :: elems l'
                      end) items)
                ++ newline ++ indent ++ "]")
      end
  | VObj props =>
      let inner := indent ++ "  " in
      match
        (fix members (l : list (string * value)) : list string :=
           match l with
           | [] => []
           | (k, e) :: l' =>
               match JSON_stringify_pretty inner e with
               | Some t => (json_quote k ++ ": " ++ t) :: members l'
               | None => members l'
               end
           end) props
      with
      | [] => Some "{}"
      | ms =>
          Some ("{" ++ newline ++ inner ++ join ("," ++ newline ++ inner) ms
                ++ newline ++ indent ++ "}")
      end
  end.

(** The bytes of a Buffer as [toJSON] lists them. *)
Fixpoint byte_values (s : string) : list value :=
  match s with
  | EmptyString => []
  | String c rest => VNum (Z.of_N (N_of_ascii c)) :: byte_values rest
  end.

(** What an operation resolved to, as a JavaScript object: the data, or
    [{ _binary: true, contentType, buffer }] with the Buffer as
    [JSON.stringify] writes it. *)
Definition js_of_result (r : api_result) : value :=
  match r with
  | Data v => v
  | Binary contentType buffer =>
      VObj [("_binary", VBool true); ("contentType", VStr contentType);
            ("buffer",
             VObj [("type", VStr "Buffer"); ("data", VArr (byte_values buffer))])]
  end.

Definition text_content (text : value) : value :=
  VArr [VObj [("type", VStr "text"); ("text", text)]].

Definition result (data : value) : value :=
  VObj [("content",
         text_content
           (match JSON_stringify_pretty "" data with
            | Some t => VStr t
            | None => VUndefined
            end))].

(** The host of the server: the text of the errors that the platform
    itself throws (the parser of [res.json()], a property read on null,
    [fetch]) and the files that [fs.readFileSync] can read, with the error
    it throws for the others. *)
Class Host : Type := {
  native_message : exn -> string;
  readFileSync : string -> outcome string
}.

(** POSIX [path.basename(p)]: the last part of [p] that is not empty,
    between slashes; [cur] is the part being read and [last] the one
    before it. *)
Fixpoint basename_from (p cur last : string) : string :=
  match p with
  | EmptyString => if String.eqb cur "" then last else cur
  | String c rest =>
      if Ascii.eqb c "/"
      then basename_from rest "" (if String.eqb cur "" then last else cur)
      else basename_from rest (cur ++ String c "") last
  end.

Definition basename (p : string) : string := basename_from p "" "".

(** [{ a, ...rest }]: the properties other than [a]. *)
Definition rest_without (k : string) (args : list (string * value)) : value :=
  VObj (filter (fun kv => negb (String.eqb (fst kv) k)) args).

Section Tools.

Context {P : Platform} {H : Host}.

(** [err.message] *)
Definition message (e : exn) : string :=
  match e with
  | Error m => m
  | _ => native_message e
  end.

Definition errorResult (err : exn) : value :=
  VObj [("content", text_content (VStr ("Error: " ++ message err)));
        ("isError", VBool true)].

(** [try { const data = await op; return result(data); }
     catch (err) { return errorResult(err); }] *)
Definition guarded (op : M api_result) : world -> value * world :=
  fun w =>
    match op w with
    | (Ok data, w') => (result (js_of_result data), w')
    | (Throw e, w') => (errorResult e, w')
    end.

(** [uploadFile(creds, filePath)], for the string that the schema makes of
    [filePath]. *)
Definition uploadFile (creds : credentials) (filePath : string) : M api_result :=
  match readFileSync filePath with
  | Throw e => throw e
  | Ok fileBuffer =>
      let fileName := basename filePath in
      apiCall "POST" "/api/files"
        {| accessKey := cred_accessKey creds; secretKey := cred_secretKey creds;
           body := BForm [{| part_name := "file"; part_bytes := fileBuffer;
                             part_filename := fileName |}];
           isFormData := VBool true |}
  end.

(** *** Read tools *)

Definition list_envelopes (creds : credentials) (params : list (string * value)) :=
  guarded (listEnvelopes creds (VObj params)).

Definition get_envelope (creds : credentials) (args : list (string * value)) :=
  guarded (getEnvelope creds (field "envelopeId" (VObj args))).

Definition list_documents (creds : credentials) (args : list (string * value)) :=
  guarded (listDocuments creds (field "envelopeId" (VObj args))).

Definition list_recipients (creds : credentials) (args : list (string * value)) :=
  guarded (listRecipients creds (field "envelopeId" (VObj args))).

Definition list_tags (creds : credentials) (args : list (string * value)) :=
  guarded (listTags creds (field "envelopeId" (VObj args))).

Definition get_download_url (creds : credentials) (args : list (string * value)) :=
  guarded (getDownloadUrl creds (field "envelopeId" (VObj args))
             (VObj [("output", field "output" (VObj args))])).

Definition get_account (creds : credentials) :=
  guarded (getAccount creds).

(** *** Write tools *)

Definition create_envelope (creds : credentials) (params : list (string * value)) :=
  guarded (createEnvelope creds (VObj params)).

(** [filePath] is the string that the schema makes of the argument. *)
Definition upload_and_attach_document (creds : credentials)
  (envelopeId : value) (filePath : string) (documentName : value)
  : world -> value * world :=
  fun w =>
    match
      (file <- uploadFile creds filePath ;;
       id <- get_prop "id" (js_of_result file) ;;
       doc <- addDocument creds envelopeId
                (VObj [("fileId", id);
                       ("name", js_or documentName (VStr (basename filePath)))]) ;;
       ret (VObj [("file", js_of_result file); ("document", js_of_result doc)])) w
    with
    | (Ok data, w') => (result data, w')
    | (Throw e, w') => (errorResult e, w')
    end.

Definition add_recipient (creds : credentials) (args : list (string * value)) :=
  guarded (addRecipient creds (field "envelopeId" (VObj args))
             (rest_without "envelopeId" args)).

Definition add_signature_tag (creds : credentials) (args : list (string * value)) :=
  guarded (addTag creds (field "envelopeId" (VObj args))
             (rest_without "envelopeId" args)).

Definition send_envelope (creds : credentials) (args : list (string * value)) :=
  guarded (sendEnvelope creds (field "envelopeId" (VObj args))).

Definition cancel_envelope (creds : credentials) (args : list (string * value)) :=
  guarded (cancelEnvelope creds (field "envelopeId" (VObj args))).

Definition delete_envelope (creds : credentials) (args : list (string * value)) :=
  guarded (deleteEnvelope creds (field "envelopeId" (VObj args))).

End Tools.

(** ** Properties of the tool layer *)

Lemma includes_slash_nil : includes "/" "" = false.
Proof. reflexivity. Qed.

Lemma includes_slash_cons (c : ascii) (s : string) :
  includes "/" (String c s) = Ascii.eqb c "/" || includes "/" s.
Proof.
  cbn [includes String.prefix].
  destruct (ascii_dec "/" c) as [<-|Hne].
  - destruct s; reflexivity.
  - destruct (Ascii.eqb_spec c "/") as [->|_]; [contradiction|reflexivity].
Qed.

Lemma no_slash_app (a b : string) :
  includes "/" (a ++ b) = includes "/" a || includes "/" b.
Proof.
  induction a as [|c a IH]; cbn [append].
  - rewrite includes_slash_nil. reflexivity.
  - rewrite !includes_slash_cons, IH. apply orb_assoc.
Qed.

Lemma append_nil_r (s : string) : s ++ "" = s.
Proof. induction s as [|c s IH]; cbn [append]; congruence. Qed.

Lemma append_snoc (a b : string) (c : ascii) :
  (a ++ String c "") ++ b = a ++ String c b.
Proof. induction a as [|d a IH]; cbn [append]; congruence. Qed.

Lemma basename_from_no_slash (p cur last : string) :
  includes "/" cur = false -> includes "/" last = false ->
  includes "/" (basename_from p cur last) = false.
Proof.
  revert cur last. induction p as [|c p IH]; intros cur last Hc Hl;
    cbn [basename_from].
  - destruct (String.eqb cur ""); assumption.
  - destruct (Ascii.eqb c "/") eqn:Hslash.
    + apply IH; [apply includes_slash_nil|].
      destruct (String.eqb cur ""); assumption.
    + apply IH; [|exact Hl].
      rewrite no_slash_app, Hc, includes_slash_cons, Hslash, includes_slash_nil.
      reflexivity.
Qed.

Lemma basename_from_name (name cur last : string) :
  includes "/" name = false ->
  basename_from name cur last
  = if String.eqb (cur ++ name) "" then last else cur ++ name.
Proof.
  revert cur. induction name as [|c name IH]; intros cur Hn; cbn [basename_from].
  - rewrite append_nil_r. reflexivity.
  - rewrite includes_slash_cons in Hn. apply orb_false_iff in Hn.
    destruct Hn as [Hc Hn]. rewrite Hc, (IH _ Hn), append_snoc. reflexivity.
Qed.

Lemma basename_from_dir (dir name cur last : string) :
  includes "/" name = false -> name <> "" ->
  basename_from (dir ++ String "/" name) cur last = name.
Proof.
  intros Hn Hne. revert cur last.
  induction dir as [|c dir IH]; intros cur last; cbn [append basename_from].
  - change (Ascii.eqb "/" "/") with true. cbn iota.
    rewrite (basename_from_name name "" _ Hn). cbn [append].
    destruct (String.eqb_spec name ""); [contradiction|reflexivity].
  - destruct (Ascii.eqb c "/"); apply IH.
Qed.

(** X14.  The file name that [uploadFile] puts in the multipart body has
    no slash in it, whatever the path; for a path that ends in a slash and
    a name, it is that name. *)
Theorem basename_is_a_file_name (dir name p : string) :
  includes "/" (basename p) = false
  /\ (includes "/" name = false -> name <> "" ->
      basename (dir ++ "/" ++ name) = name).
Proof.
  split.
  - apply basename_from_no_slash; apply includes_slash_nil.
  - intros Hn Hne. apply basename_from_dir; assumption.
Qed.

Section ToolFacts.

Context {P : Platform} {H : Host}.

(** X15.  A file that cannot be read fails [uploadFile] with the error of
    the file system before anything is sent: the world, cache and network
    alike, is untouched, and the tool returns that error, flagged. *)
Theorem uploadFile_unreadable_file_sends_nothing (creds : credentials)
  (envelopeId documentName : value) (filePath : string) (e : exn) (w : world) :
  readFileSync filePath = Throw e ->
  uploadFile creds filePath w = (Throw e, w)
  /\ upload_and_attach_document creds envelopeId filePath documentName w
     = (errorResult e, w).
Proof.
  intros Hr. unfold upload_and_attach_document, bind, uploadFile.
  rewrite Hr. split; reflexivity.
Qed.

(** X16.  With a valid cached token and a readable file, [uploadFile]
    sends one request: a POST to /api/files whose body is the multipart
    form with the one part [file], the bytes as read and the base name of
    the path as file name, and whose only header is the Authorization. *)
Theorem uploadFile_request (creds : credentials) (filePath fileBuffer : string)
  (w : world) :
  token_valid w -> readFileSync filePath = Ok fileBuffer ->
  sent (snd (uploadFile creds filePath w))
  = (sent w ++
     [{| req_method := "POST";
         req_url := (BASE_URL ++ "/api/files")%string;
         req_headers :=
           [("Authorization", ("Bearer " ++ ToString (cachedToken w))%string)];
         req_body := FormBody [{| part_name := "file"; part_bytes := fileBuffer;
                                  part_filename := basename filePath |}] |}])%list.
Proof.
  intros Hv Hr. unfold uploadFile. rewrite Hr.
  exact (proj1 (apiCall_warm_world _ _ _ w Hv)).
Qed.

(** X17.  When the upload fails, for whatever reason, the tool returns
    that error and attaches nothing: the world is the one the upload left.
    The same holds, with a TypeError, when the upload is answered by the
    JSON null. *)
Theorem upload_failure_attaches_nothing (creds : credentials)
  (envelopeId documentName : value) (filePath : string) (w w1 : world) :
  (forall e : exn,
      uploadFile creds filePath w = (Throw e, w1) ->
      upload_and_attach_document creds envelopeId filePath documentName w
      = (errorResult e, w1))
  /\ (uploadFile creds filePath w = (Ok (Data VNull), w1) ->
      upload_and_attach_document creds envelopeId filePath documentName w
      = (errorResult TypeError, w1)).
Proof.
  split.
  - intros e Hu. unfold upload_and_attach_document. unfold bind at 1.
    rewrite Hu. reflexivity.
  - intros Hu. unfold upload_and_attach_document. unfold bind at 1.
    rewrite Hu. reflexivity.
Qed.

Lemma addDocument_request (creds : credentials) (envelopeId id name : value) :
  addDocument creds envelopeId (VObj [("fileId", id); ("name", name)])
  = apiCall "POST" ("/api/envelopes/" ++ ToString envelopeId ++ "/documents")
      (with_body creds
         (VObj [("file", VStr ("/api/files/" ++ ToString id)); ("name", name)])).
Proof. reflexivity. Qed.

(** After an upload answered with data, the tool is the attachment. *)
Lemma upload_and_attach_after_upload (creds : credentials)
  (envelopeId documentName file : value) (filePath : string) (w w1 : world) :
  uploadFile creds filePath w = (Ok (Data file), w1) ->
  nullish file = false ->
  upload_and_attach_document creds envelopeId filePath documentName w
  = match
      apiCall "POST" ("/api/envelopes/" ++ ToString envelopeId ++ "/documents")
        (with_body creds
           (VObj [("file", VStr ("/api/files/" ++ ToString (field "id" file)));
                  ("name", js_or documentName (VStr (basename filePath)))])) w1
    with
    | (Ok doc, w2) =>
        (result (VObj [("file", file); ("document", js_of_result doc)]), w2)
    | (Throw e, w2) => (errorResult e, w2)
    end.
Proof.
  intros Hu Hn. unfold upload_and_attach_document, bind. rewrite Hu.
  cbn [js_of_result]. unfold get_prop. rewrite Hn. unfold ret.
  rewrite addDocument_request.
  match goal with
  | |- context [apiCall ?m ?p ?o w1] => destruct (apiCall m p o w1) as [[doc|e] w2]
  end; reflexivity.
Qed.

(** X18.  When the upload is answered with data, the tool goes on to
    attach: with the token still valid, the next request is the POST to
    the documents of the envelope, and its body names the file by the [id]
    of the upload answer, unchecked, and the document by [documentName]
    or, when that is falsy, by the base name of the path. *)
Theorem upload_then_attach_request (creds : credentials)
  (envelopeId documentName file : value) (filePath : string) (w w1 : world) :
  uploadFile creds filePath w = (Ok (Data file), w1) ->
  nullish file = false -> token_valid w1 ->
  sent (snd (upload_and_attach_document creds envelopeId filePath documentName w))
  = (sent w1 ++
     [api_request (cachedToken w1) "POST"
        ("/api/envelopes/" ++ ToString envelopeId ++ "/documents")%string
        (with_body creds
           (VObj [("file",
                   VStr ("/api/files/" ++ ToString (field "id" file))%string);
                  ("name", js_or documentName (VStr (basename filePath)))]))])%list.
Proof.
  intros Hu Hn Hv.
  rewrite (upload_and_attach_after_upload creds envelopeId documentName file
             filePath w w1 Hu Hn).
  pose proof (proj1 (apiCall_warm_world "POST"
      ("/api/envelopes/" ++ ToString envelopeId ++ "/documents")
      (with_body creds
         (VObj [("file", VStr ("/api/files/" ++ ToString (field "id" file)));
                ("name", js_or documentName (VStr (basename filePath)))]))
      w1 Hv)) as Hs.
  destruct (apiCall "POST" ("/api/envelopes/" ++ ToString envelopeId ++ "/documents")
              (with_body creds
                 (VObj [("file", VStr ("/api/files/" ++ ToString (field "id" file)));
                        ("name", js_or documentName (VStr (basename filePath)))])) w1)
    as [[doc|e] w2]; exact Hs.
Qed.

(** X19.  An HTTP failure does not escape a tool as an exception: when the
    operation is answered, not by a download, with a status outside
    200..299 and a JSON body, the tool returns a result flagged [isError]
    whose text is [Error: API error (status): ] and the compact JSON of
    the body. *)
Theorem tool_reports_http_error (method path : string) (o : options)
  (w w1 : world) (token : value) (res : response) (rest : list response)
  (data : value) :
  getToken (accessKey o) (secretKey o) w = (Ok token, w1) ->
  replies w1 = res :: rest ->
  is_binary (contentType_of res) = false ->
  ok res = false -> status res <> 204 ->
  json res = Some data ->
  fst (guarded (apiCall method path o) w)
  = VObj [("content",
           VArr [VObj [("type", VStr "text");
                       ("text",
                        VStr ("Error: API error (" ++ string_of_Z (status res)
                              ++ "): " ++ text_of_json data))]]);
          ("isError", VBool true)].
Proof.
  intros Hg Hr Hb Hok Hs Hj.
  pose proof (apiCall_error_json method path o w w1 token res rest data
                Hg Hr Hb Hok Hs Hj) as He.
  unfold guarded. destruct (apiCall method path o w) as [out w2].
  simpl in He. rewrite He. reflexivity.
Qed.

(** X20.  A key pair that the service refuses shows in every tool as a
    result flagged [isError] whose text is [Error: Auth failed (status): ]
    and the raw body of the refusal; the request of the operation itself
    is never sent. *)
Theorem tool_reports_auth_failure (method path : string) (o : options)
  (w : world) (res : response) (rest : list response) :
  ~ token_valid w -> replies w = res :: rest -> ok res = false ->
  guarded (apiCall method path o) w
  = (VObj [("content",
            VArr [VObj [("type", VStr "text");
                        ("text",
                         VStr ("Error: Auth failed (" ++ string_of_Z (status res)
                               ++ "): " ++ body_bytes res))]]);
           ("isError", VBool true)],
     exchanged (accessKey o) (secretKey o) rest w).
Proof.
  intros Hv Hr Hok. apply cache_usable_false_iff in Hv.
  pose proof (getToken_miss_rejected (accessKey o) (secretKey o) w res rest
                Hv Hr Hok) as Hg.
  unfold guarded.
  rewrite (apiCall_token_failure method path o w _ _ Hg). reflexivity.
Qed.

(** X21.  An answer with status 204 comes back from a tool as the text of
    the object with the one member success, true, on three lines, and
    with no [isError]. *)
Theorem tool_reports_no_content (method path : string) (o : options)
  (w w1 : world) (token : value) (res : response) (rest : list response) :
  getToken (accessKey o) (secretKey o) w = (Ok token, w1) ->
  replies w1 = res :: rest ->
  is_binary (contentType_of res) = false -> status res = 204 ->
  fst (guarded (apiCall method path o) w)
  = VObj [("content",
           VArr [VObj [("type", VStr "text");
                       ("text",
                        VStr ("{" ++ newline ++ "  " ++ json_quote "success"
                              ++ ": true" ++ newline ++ "}"))]])].
Proof.
  intros Hg Hr Hb Hs. unfold guarded.
  rewrite (apiCall_after_token method path o w w1 token res rest Hg Hr).
  rewrite Hb, Hs. reflexivity.
Qed.

End ToolFacts.

(** ** Examples for the further properties *)

(** A host for the examples: one readable file, the usual error for any
    other path, and one text for each error of the platform. *)
#[global] Instance sample_host : Host :=
  {| native_message := fun e =>
       match e with
       | Error m => m
       | SyntaxError => "Unexpected end of JSON input"
       | TypeError => "Cannot read properties of null"
       | FetchFailed => "fetch failed"
       end;
     readFileSync := fun p =>
       if String.eqb p "/home/ops/contract.pdf"
       then Ok "%PDF-1.7 contract"
       else Throw (Error ("ENOENT: no such file or directory, open '" ++ p ++ "'")) |}.

(** An answer with a success status and a body that is not JSON. *)
Definition plain_reply : response :=
  {| status := 200; content_type := Some "text/plain"; body_bytes := "OK";
     json := None |}.

Lemma cached_world_valid (net : list response) :
  token_valid (cached_world 1700000000000 net).
Proof. apply cache_usable_iff. reflexivity. Defined.

Lemma getToken_failure_keeps_cache_witness :
  cachedToken (snd (getToken (VStr "access-1") (VStr "secret-1")
                      (cached_world 1700003600000 [])))
  = VStr "T1"
  /\ tokenExpiry (snd (getToken (VStr "access-1") (VStr "secret-1")
                         (cached_world 1700003600000 [])))
     = VNum 1700003600
  /\ sent (snd (getToken (VStr "access-1") (VStr "secret-1")
                  (cached_world 1700003600000 [])))
     = [token_request (VStr "access-1") (VStr "secret-1")].
Proof.
  exact (getToken_failure_keeps_cache (VStr "access-1") (VStr "secret-1")
           (cached_world 1700003600000 [])
           (snd (getToken (VStr "access-1") (VStr "secret-1")
                   (cached_world 1700003600000 [])))
           FetchFailed eq_refl).
Defined.


Lemma getToken_short_lived_token_never_reused_witness :
  fst (getToken (VStr "access-1") (VStr "secret-1")
         (initial 1000000000 [token_reply "T1" 1000030]))
  = Ok (VStr "T1")
  /\ tokenExpiry (snd (getToken (VStr "access-1") (VStr "secret-1")
                         (initial 1000000000 [token_reply "T1" 1000030])))
     = VNum 1000030
  /\ forall later : Z,
       1000000000 <= later ->
       ~ token_valid
           (at_time later
              (snd (getToken (VStr "access-1") (VStr "secret-1")
                      (initial 1000000000 [token_reply "T1" 1000030])))).
Proof.
  apply (getToken_short_lived_token_never_reused
           (VStr "access-1") (VStr "secret-1")
           (initial 1000000000 [token_reply "T1" 1000030])
           (token_reply "T1" 1000030) []
           (VObj [("token", VStr "T1"); ("exp", VNum 1000030)]) 1000030).
  - apply cache_usable_false_iff. reflexivity.
  - reflexivity.
  - reflexivity.
  - reflexivity.
  - reflexivity.
  - reflexivity.
  - simpl. lia.
Defined.

Lemma apiCall_warm_sends_one_request_witness :
  sent (snd (apiCall "GET" "/api/account" (of_creds sample_creds)
               (cached_world 1700000000000 [])))
  = [api_request (VStr "T1") "GET" "/api/account" (of_creds sample_creds)]
  /\ cachedToken (snd (apiCall "GET" "/api/account" (of_creds sample_creds)
                         (cached_world 1700000000000 [])))
     = VStr "T1"
  /\ tokenExpiry (snd (apiCall "GET" "/api/account" (of_creds sample_creds)
                         (cached_world 1700000000000 [])))
     = VNum 1700003600.
Proof.
  exact (apiCall_warm_sends_one_request "GET" "/api/account" (of_creds sample_creds)
           (cached_world 1700000000000 []) (cached_world_valid [])).
Defined.

Lemma apiCall_cold_sends_two_requests_witness :
  sent (snd (apiCall "GET" "/api/account" (of_creds sample_creds)
               (initial 1000000000 [token_reply "T1" 1003600; bad_gateway_reply])))
  = [token_request (VStr "access-1") (VStr "secret-1");
     api_request (VStr "T1") "GET" "/api/account" (of_creds sample_creds)]
  /\ cachedToken
       (snd (apiCall "GET" "/api/account" (of_creds sample_creds)
               (initial 1000000000 [token_reply "T1" 1003600; bad_gateway_reply])))
     = VStr "T1"
  /\ tokenExpiry
       (snd (apiCall "GET" "/api/account" (of_creds sample_creds)
               (initial 1000000000 [token_reply "T1" 1003600; bad_gateway_reply])))
     = VNum 1003600.
Proof.
  exact (apiCall_cold_sends_two_requests "GET" "/api/account" (of_creds sample_creds)
           (initial 1000000000 [token_reply "T1" 1003600; bad_gateway_reply])
           (token_reply "T1" 1003600) [bad_gateway_reply]
           (VObj [("token", VStr "T1"); ("exp", VNum 1003600)])
           ltac:(apply cache_usable_false_iff; reflexivity)
           eq_refl eq_refl eq_refl eq_refl).
Defined.

Lemma apiCall_without_token_sends_nothing_witness :
  apiCall "POST" "/api/envelopes/e1/send" (of_creds sample_creds)
    (initial 1000000000 [denied_reply; empty_reply])
  = (Throw (Error ("Auth failed (401): " ++ body_bytes denied_reply)),
     {| cachedToken := VNull; tokenExpiry := VNum 0; clock := 1000000000;
        sent := [token_request (VStr "access-1") (VStr "secret-1")];
        replies := [empty_reply] |})
  /\ sent {| cachedToken := VNull; tokenExpiry := VNum 0; clock := 1000000000;
             sent := [token_request (VStr "access-1") (VStr "secret-1")];
             replies := [empty_reply] |}
     = [token_request (VStr "access-1") (VStr "secret-1")].
Proof.
  exact (apiCall_without_token_sends_nothing "POST" "/api/envelopes/e1/send"
           (of_creds sample_creds)
           (initial 1000000000 [denied_reply; empty_reply])
           {| cachedToken := VNull; tokenExpiry := VNum 0; clock := 1000000000;
              sent := [token_request (VStr "access-1") (VStr "secret-1")];
              replies := [empty_reply] |}
           (Error ("Auth failed (401): " ++ body_bytes denied_reply))
           eq_refl).
Defined.

Lemma apiCall_http_error_message_witness :
  fst (apiCall "POST" "/api/envelopes/e1/send" (of_creds sample_creds)
         (cached_world 1700000000000
            [json_reply 422 (VObj [("detail", VStr "no tags")])]))
  = Throw (Error ("API error (422): "
                  ++ text_of_json (VObj [("detail", VStr "no tags")]))).
Proof.
  apply (apiCall_http_error_message "POST" "/api/envelopes/e1/send"
           (of_creds sample_creds)
           (cached_world 1700000000000
              [json_reply 422 (VObj [("detail", VStr "no tags")])])
           (cached_world 1700000000000
              [json_reply 422 (VObj [("detail", VStr "no tags")])])
           (VStr "T1") (json_reply 422 (VObj [("detail", VStr "no tags")])) []
           (VObj [("detail", VStr "no tags")])).
  - reflexivity.
  - reflexivity.
  - reflexivity.
  - right. simpl. lia.
  - reflexivity.
Defined.

Lemma apiCall_success_status_needs_json_witness :
  fst (apiCall "POST" "/api/envelopes/e1/send" (of_creds sample_creds)
         (cached_world 1700000000000 [plain_reply]))
  = Throw SyntaxError.
Proof.
  apply (apiCall_success_status_needs_json "POST" "/api/envelopes/e1/send"
           (of_creds sample_creds)
           (cached_world 1700000000000 [plain_reply])
           (cached_world 1700000000000 [plain_reply])
           (VStr "T1") plain_reply []).
  - reflexivity.
  - reflexivity.
  - reflexivity.
  - discriminate.
  - reflexivity.
  - reflexivity.
Defined.

Lemma createEnvelope_body_properties_witness :
  has_own "emailBody"
    (createEnvelope_body
       (VObj [("name", VStr "Lease"); ("emailBody", VStr "");
              ("senderName", VStr "Ops")]))
  = false
  /\ field "senderName"
       (createEnvelope_body
          (VObj [("name", VStr "Lease"); ("emailBody", VStr "");
                 ("senderName", VStr "Ops")]))
     = VStr "Ops".
Proof.
  split.
  - exact (proj1 (proj1 (proj2 (proj2 (createEnvelope_body_properties
             (VObj [("name", VStr "Lease"); ("emailBody", VStr "");
                    ("senderName", VStr "Ops")]))))
             "emailBody" (or_introl eq_refl))).
  - exact (proj2 (proj1 (proj2 (proj2 (createEnvelope_body_properties
             (VObj [("name", VStr "Lease"); ("emailBody", VStr "");
                    ("senderName", VStr "Ops")]))))
             "senderName" (or_intror (or_intror (or_introl eq_refl))))
             eq_refl).
Defined.

Lemma addTag_missing_coordinates_vanish_witness :
  request_body
    (with_body sample_creds
       (addTag_body (VStr "e1") (VObj [("recipientId", VStr "r1")])))
  = TextBody
      (text_of_json
         (VObj [("recipient", VStr "/api/envelopes/e1/recipients/r1");
                ("type", VStr "signature");
                ("document", VStr "/api/envelopes/e1/documents/undefined")])).
Proof.
  exact (addTag_missing_coordinates_vanish sample_creds (VStr "e1")
           (VObj [("recipientId", VStr "r1")]) eq_refl eq_refl eq_refl eq_refl).
Defined.

Lemma addTagByPlaceholder_body_properties_witness :
  field "applyToDocuments"
    (addTagByPlaceholder_body (VStr "e1")
       (VObj [("recipientId", VStr "r1"); ("placeholder", VStr "{sign}");
              ("documentIds", VArr [])]))
  = VArr []
  /\ field "applyToDocuments"
       (addTagByPlaceholder_body (VStr "e1")
          (VObj [("recipientId", VStr "r1"); ("placeholder", VStr "{sign}");
                 ("documentIds", VArr [VStr "d1"; VStr "d2"])]))
     = VArr [VStr "d1"; VStr "d2"].
Proof.
  split.
  - exact (proj1 (proj2 (proj2 (proj2 (proj2 (proj2
             (addTagByPlaceholder_body_properties (VStr "e1")
                (VObj [("recipientId", VStr "r1"); ("placeholder", VStr "{sign}");
                       ("documentIds", VArr [])])))))))
             eq_refl).
  - exact (proj1 (proj2 (proj2 (proj2 (proj2
             (addTagByPlaceholder_body_properties (VStr "e1")
                (VObj [("recipientId", VStr "r1"); ("placeholder", VStr "{sign}");
                       ("documentIds", VArr [VStr "d1"; VStr "d2"])]))))))
             eq_refl).
Defined.

Lemma basename_is_a_file_name_witness :
  basename ("/home/ops" ++ "/" ++ "contract.pdf") = "contract.pdf".
Proof.
  apply (proj2 (basename_is_a_file_name "/home/ops" "contract.pdf" "")).
  - reflexivity.
  - discriminate.
Defined.

Lemma uploadFile_unreadable_file_sends_nothing_witness :
  uploadFile sample_creds "/home/ops/missing.pdf" (initial 1000000000 [])
  = (Throw (Error ("ENOENT: no such file or directory, open '"
                   ++ "/home/ops/missing.pdf" ++ "'")),
     initial 1000000000 [])
  /\ upload_and_attach_document sample_creds (VStr "e1") "/home/ops/missing.pdf"
       VUndefined (initial 1000000000 [])
     = (errorResult
          (Error ("ENOENT: no such file or directory, open '"
                  ++ "/home/ops/missing.pdf" ++ "'")),
        initial 1000000000 []).
Proof.
  exact (uploadFile_unreadable_file_sends_nothing sample_creds (VStr "e1")
           VUndefined "/home/ops/missing.pdf"
           (Error ("ENOENT: no such file or directory, open '"
                   ++ "/home/ops/missing.pdf" ++ "'"))
           (initial 1000000000 []) eq_refl).
Defined.

Lemma uploadFile_request_witness :
  sent (snd (uploadFile sample_creds "/home/ops/contract.pdf"
               (cached_world 1700000000000 [])))
  = [{| req_method := "POST";
        req_url := "https://api.digisign.org/api/files";
        req_headers := [("Authorization", "Bearer T1")];
        req_body := FormBody [{| part_name := "file";
                                 part_bytes := "%PDF-1.7 contract";
                                 part_filename := "contract.pdf" |}] |}].
Proof.
  exact (uploadFile_request sample_creds "/home/ops/contract.pdf"
           "%PDF-1.7 contract" (cached_world 1700000000000 [])
           (cached_world_valid []) eq_refl).
Defined.

Lemma upload_failure_attaches_nothing_witness :
  upload_and_attach_document sample_creds (VStr "e1") "/home/ops/contract.pdf"
    VUndefined
    (cached_world 1700000000000 [bad_gateway_reply; json_reply 201 (VObj [])])
  = (errorResult SyntaxError,
     snd (uploadFile sample_creds "/home/ops/contract.pdf"
            (cached_world 1700000000000
               [bad_gateway_reply; json_reply 201 (VObj [])])))
  /\ upload_and_attach_document sample_creds (VStr "e1") "/home/ops/contract.pdf"
       VUndefined
       (cached_world 1700000000000 [json_reply 200 VNull; json_reply 201 (VObj [])])
     = (errorResult TypeError,
        snd (uploadFile sample_creds "/home/ops/contract.pdf"
               (cached_world 1700000000000
                  [json_reply 200 VNull; json_reply 201 (VObj [])]))).
Proof.
  split.
  - exact (proj1 (upload_failure_attaches_nothing sample_creds (VStr "e1")
             VUndefined "/home/ops/contract.pdf"
             (cached_world 1700000000000
                [bad_gateway_reply; json_reply 201 (VObj [])])
             (snd (uploadFile sample_creds "/home/ops/contract.pdf"
                     (cached_world 1700000000000
                        [bad_gateway_reply; json_reply 201 (VObj [])]))))
             SyntaxError eq_refl).
  - exact (proj2 (upload_failure_attaches_nothing sample_creds (VStr "e1")
             VUndefined "/home/ops/contract.pdf"
             (cached_world 1700000000000
                [json_reply 200 VNull; json_reply 201 (VObj [])])
             (snd (uploadFile sample_creds "/home/ops/contract.pdf"
                     (cached_world 1700000000000
                        [json_reply 200 VNull; json_reply 201 (VObj [])]))))
             eq_refl).
Defined.

Lemma upload_then_attach_request_witness :
  sent (snd (upload_and_attach_document sample_creds (VStr "e1")
               "/home/ops/contract.pdf" VUndefined
               (cached_world 1700000000000
                  [json_reply 201 (VObj [("id", VStr "f1")]);
                   json_reply 201 (VObj [("id", VStr "d1")])])))
  = [api_request (VStr "T1") "POST" "/api/files"
       {| accessKey := VStr "access-1"; secretKey := VStr "secret-1";
          body := BForm [{| part_name := "file"; part_bytes := "%PDF-1.7 contract";
                            part_filename := "contract.pdf" |}];
          isFormData := VBool true |};
     api_request (VStr "T1") "POST" "/api/envelopes/e1/documents"
       (with_body sample_creds
          (VObj [("file", VStr "/api/files/f1");
                 ("name", VStr "contract.pdf")]))].
Proof.
  exact (upload_then_attach_request sample_creds (VStr "e1") VUndefined
           (VObj [("id", VStr "f1")]) "/home/ops/contract.pdf"
           (cached_world 1700000000000
              [json_reply 201 (VObj [("id", VStr "f1")]);
               json_reply 201 (VObj [("id", VStr "d1")])])
           (snd (uploadFile sample_creds "/home/ops/contract.pdf"
                   (cached_world 1700000000000
                      [json_reply 201 (VObj [("id", VStr "f1")]);
                       json_reply 201 (VObj [("id", VStr "d1")])])))
           eq_refl eq_refl
           ltac:(apply cache_usable_iff; reflexivity)).
Defined.

Lemma tool_reports_http_error_witness :
  fst (send_envelope sample_creds [("envelopeId", VStr "e1")]
         (cached_world 1700000000000
            [json_reply 422 (VObj [("detail", VStr "no tags")])]))
  = VObj [("content",
           VArr [VObj [("type", VStr "text");
                       ("text",
                        VStr ("Error: API error (422): "
                              ++ text_of_json (VObj [("detail", VStr "no tags")])))]]);
          ("isError", VBool true)].
Proof.
  apply (tool_reports_http_error "POST" "/api/envelopes/e1/send"
           (of_creds sample_creds)
           (cached_world 1700000000000
              [json_reply 422 (VObj [("detail", VStr "no tags")])])
           (cached_world 1700000000000
              [json_reply 422 (VObj [("detail", VStr "no tags")])])
           (VStr "T1") (json_reply 422 (VObj [("detail", VStr "no tags")])) []
           (VObj [("detail", VStr "no tags")])).
  - reflexivity.
  - reflexivity.
  - reflexivity.
  - reflexivity.
  - discriminate.
  - reflexivity.
Defined.

Lemma tool_reports_auth_failure_witness :
  get_account sample_creds (initial 1000000000 [denied_reply])
  = (VObj [("content",
            VArr [VObj [("type", VStr "text");
                        ("text",
                         VStr ("Error: Auth failed (401): "
                               ++ body_bytes denied_reply))]]);
           ("isError", VBool true)],
     {| cachedToken := VNull; tokenExpiry := VNum 0; clock := 1000000000;
        sent := [token_request (VStr "access-1") (VStr "secret-1")];
        replies := [] |}).
Proof.
  exact (tool_reports_auth_failure "GET" "/api/account" (of_creds sample_creds)
           (initial 1000000000 [denied_reply]) denied_reply []
           ltac:(apply cache_usable_false_iff; reflexivity) eq_refl eq_refl).
Defined.

Lemma tool_reports_no_content_witness :
  fst (delete_envelope sample_creds [("envelopeId", VStr "e1")]
         (cached_world 1700000000000 [empty_reply]))
  = VObj [("content",
           VArr [VObj [("type", VStr "text");
                       ("text",
                        VStr ("{" ++ newline ++ "  " ++ json_quote "success"
                              ++ ": true" ++ newline ++ "}"))]])].
Proof.
  exact (tool_reports_no_content "DELETE" "/api/envelopes/e1"
           (of_creds sample_creds)
           (cached_world 1700000000000 [empty_reply])
           (cached_world 1700000000000 [empty_reply])
           (VStr "T1") empty_reply [] eq_refl eq_refl eq_refl eq_refl).
Defined.

Lemma two_operations_share_one_exchange_witness :
  sent (snd (apiCall "POST" "/api/envelopes/e1/send" (of_creds sample_creds)
               (at_time 1000060000
                  (snd (apiCall "POST" "/api/envelopes"
                          (with_body sample_creds (VObj [("name", VStr "X")]))
                          (initial 1000000000
                             [token_reply "T1" 1003600;
                              json_reply 201 (VObj [("id", VStr "e1")]);
                              empty_reply]))))))
  = [token_request (VStr "access-1") (VStr "secret-1");
     api_request (VStr "T1") "POST" "/api/envelopes"
       (with_body sample_creds (VObj [("name", VStr "X")]));
     api_request (VStr "T1") "POST" "/api/envelopes/e1/send" (of_creds sample_creds)].
Proof.
  apply (two_operations_share_one_exchange
           "POST" "/api/envelopes" "POST" "/api/envelopes/e1/send"
           (with_body sample_creds (VObj [("name", VStr "X")]))
           (of_creds sample_creds)
           (initial 1000000000
              [token_reply "T1" 1003600;
               json_reply 201 (VObj [("id", VStr "e1")]); empty_reply])
           (token_reply "T1" 1003600)
           [json_reply 201 (VObj [("id", VStr "e1")]); empty_reply]
           (VObj [("token", VStr "T1"); ("exp", VNum 1003600)])
           1003600 1000060000).
  - apply cache_usable_false_iff. reflexivity.
  - reflexivity.
  - reflexivity.
  - reflexivity.
  - reflexivity.
  - reflexivity.
  - reflexivity.
  - simpl. lia.
Defined.

Lemma apiCall_warm_request_ignores_keys_witness :
  sent (snd (apiCall "POST" "/api/envelopes"
               (with_body sample_creds (VObj [("name", VStr "X")]))
               (cached_world 1700000000000 [])))
  = sent (snd (apiCall "POST" "/api/envelopes"
                 (with_body {| cred_accessKey := VStr "access-2";
                               cred_secretKey := VStr "secret-2" |}
                    (VObj [("name", VStr "X")]))
                 (cached_world 1700000000000 []))).
Proof.
  exact (apiCall_warm_request_ignores_keys "POST" "/api/envelopes" sample_creds
           {| cred_accessKey := VStr "access-2"; cred_secretKey := VStr "secret-2" |}
           (VObj [("name", VStr "X")]) (cached_world 1700000000000 [])
           (cached_world_valid [])).
Defined.
